(** * SoilGuard: zone grid, health ladder, farm validation and polling

    A shallow embedding of the logic of the SoilGuard front end and schema:

    - [HealthGauge.getHealthConfig], [ZoneMap.getHealthColor] (threshold ladder);
    - [ZoneMapOverlay.calculateZoneBounds] (grid cell bounding boxes);
    - [FarmDetailPage.handleSoilHealthOnly] / [handleROIOnly] (polling loops);
    - [NewFarmPage.validateForm] / [handleSubmit] and the [farms] table checks.

    Numbers.  A JavaScript [number] that is only compared against literals is
    modelled by [number]: a finite value is a rational (every finite double is
    one, and comparison of doubles is exact), next to NaN and the infinities.
    The trigonometric code of [calculateZoneBounds] is modelled over the real
    numbers, a non-finite result (Infinity, NaN) being [None]; rounding of
    doubles is outside that model. *)

From Stdlib Require Import QArith ZArith List String Bool Lia Lqa.
Ltac qlra := lra.
From Stdlib Require Import Reals Lra.
Import ListNotations.

Open Scope string_scope.

(** ** JavaScript numbers under comparison *)

Inductive number : Type :=
| NaN
| NegInf
| PosInf
| Num (q : Q).

Definition isNaN (x : number) : bool :=
  match x with NaN => true | _ => false end.

(** [x >= c], [x <= c] and [x > c] for a finite literal [c]. *)
Definition num_geb (x : number) (c : Q) : bool :=
  match x with
  | NaN => false | NegInf => false | PosInf => true
  | Num q => Qle_bool c q
  end.

Definition num_leb (x : number) (c : Q) : bool :=
  match x with
  | NaN => false | NegInf => true | PosInf => false
  | Num q => Qle_bool q c
  end.

Definition num_gtb (x : number) (c : Q) : bool :=
  match x with
  | NaN => false | NegInf => false | PosInf => true
  | Num q => negb (Qle_bool q c)
  end.

(** ** Zone status categories *)

Inductive ZoneStatus : Type := healthy | moderate | degraded | critical.

Module ZoneDetail.

(** [getStatusConfig(status).label] of ZoneDetail.tsx. *)
Definition statusLabel (s : ZoneStatus) : string :=
  match s with
  | healthy => "Healthy"
  | moderate => "Moderate"
  | degraded => "Needs Attention"
  | critical => "Critical"
  end.

End ZoneDetail.

Module HealthGauge.

Record HealthConfig : Type := mkHealthConfig
  { color : string; bgColor : string; label : string }.

(** [getHealthConfig] of HealthGauge.tsx (the decorative emoji field is
    left out). *)
Definition getHealthConfig (score : number) : HealthConfig :=
  if num_geb score 75 then
    mkHealthConfig "#22c55e" "#dcfce7" "Healthy"
  else if num_geb score 55 then
    mkHealthConfig "#eab308" "#fef9c3" "Moderate"
  else if num_geb score 35 then
    mkHealthConfig "#f97316" "#ffedd5" "Needs Attention"
  else
    mkHealthConfig "#ef4444" "#fee2e2" "Critical".

End HealthGauge.

Module ZoneMap.

(** [getHealthColor] of ZoneMap.tsx. *)
Definition getHealthColor (health : number) : string :=
  if num_geb health 75 then "bg-green-500"
  else if num_geb health 55 then "bg-yellow-500"
  else if num_geb health 35 then "bg-orange-500"
  else "bg-red-500".

(** The legend of ZoneMap.tsx: the swatch colour of each category. *)
Definition legendColor (s : ZoneStatus) : string :=
  match s with
  | healthy => "bg-green-500"
  | moderate => "bg-yellow-500"
  | degraded => "bg-orange-500"
  | critical => "bg-red-500"
  end.

End ZoneMap.

(** The threshold ladder in the words of the specification. *)
Definition classify_spec (q : Q) (s : ZoneStatus) : Prop :=
  match s with
  | healthy => 75 <= q
  | moderate => 55 <= q /\ q < 75
  | degraded => 35 <= q /\ q < 55
  | critical => q < 35
  end.

(** The category displayed for a score: the one whose label the gauge shows
    and whose legend colour the zone map paints. *)
Definition shows (score : number) (s : ZoneStatus) : Prop :=
  HealthGauge.label (HealthGauge.getHealthConfig score) = ZoneDetail.statusLabel s
  /\ ZoneMap.getHealthColor score = ZoneMap.legendColor s.

(** ** Grid tier selection *)

Module SpatialGrid.

Record Tier : Type := mkTier
  { rows : nat; cols : nat; resolution_m : nat }.

(** Modelled from the spec: the tier selection function (the back end's
    spatial_grid.py is not among the sources); the table of section 4.1,
    which the README's Dynamic Grid System list repeats. *)
Definition tier (area : Q) : Tier :=
  if Qle_bool 50 area then mkTier 5 5 30
  else if Qle_bool 10 area then mkTier 4 4 30
  else if Qle_bool 2 area then mkTier 3 3 10
  else mkTier 2 2 10.

Definition zones (t : Tier) : nat := rows t * cols t.

End SpatialGrid.

(** ** Zone bounding boxes (ZoneMapOverlay) *)

Module ZoneMapOverlay.

Local Open Scope R_scope.

(** A number of the geometric code: a real, or [None] for a non-finite
    double (Infinity, NaN).  Sums, differences and products of finite
    values are finite; a quotient is finite unless the divisor is zero; a
    square root is finite unless the argument is negative. *)
Definition fdiv (a b : R) : option R :=
  if Req_EM_T b 0 then None else Some (a / b).

Definition fsqrt (a : R) : option R :=
  if Rlt_dec a 0 then None else Some (sqrt a).

Definition bind {A B : Type} (m : option A) (k : A -> option B) : option B :=
  match m with Some a => k a | None => None end.

Notation "x <- m ;; k" := (bind m (fun x => k))
  (at level 61, m at next level, right associativity).

(** [[south, west], [north, east]] *)
Definition Bounds : Type := (R * R) * (R * R).

Definition south (b : Bounds) : R := fst (fst b).
Definition west (b : Bounds) : R := snd (fst b).
Definition north (b : Bounds) : R := fst (snd b).
Definition east (b : Bounds) : R := snd (snd b).

(** The divisor of the metres-to-longitude-degrees conversion. *)
Definition lonDivisor (centerLat : R) : R :=
  111320 * cos (centerLat * PI / 180).

Definition calculateZoneBounds
    (centerLat centerLon areaHectares gridRows gridCols row col : R)
    : option Bounds :=
  let totalAreaM2 := areaHectares * 10000 in
  sideLengthM <- fsqrt totalAreaM2 ;;
  latDegPerMeter <- fdiv 1 111320 ;;
  lonDegPerMeter <- fdiv 1 (lonDivisor centerLat) ;;
  half <- fdiv sideLengthM 2 ;;
  let halfSideLat := half * latDegPerMeter in
  let halfSideLon := half * lonDegPerMeter in
  let farmNorth := centerLat + halfSideLat in
  let farmSouth := centerLat - halfSideLat in
  let farmWest := centerLon - halfSideLon in
  let farmEast := centerLon + halfSideLon in
  zoneHeight <- fdiv (farmNorth - farmSouth) gridRows ;;
  zoneWidth <- fdiv (farmEast - farmWest) gridCols ;;
  let north := farmNorth - (row * zoneHeight) in
  let south := north - zoneHeight in
  let west := farmWest + (col * zoneWidth) in
  let east := west + zoneWidth in
  Some ((south, west), (north, east)).

(** The zone at grid indices, as [ZoneMapOverlay] calls the function for
    each zone record. *)
Definition zoneAt (lat lon area : R) (rows cols : nat) (r c : nat)
    : option Bounds :=
  calculateZoneBounds lat lon area (INR rows) (INR cols) (INR r) (INR c).

Definition zoneAtZ (lat lon area : R) (rows cols : nat) (r c : Z)
    : option Bounds :=
  calculateZoneBounds lat lon area (INR rows) (INR cols) (IZR r) (IZR c).

(** *** The farm square and its partition, in the words of the spec *)

(** Half the side of the farm square, in degrees of latitude and of
    longitude. *)
Definition halfSideLatDeg (area : R) : R :=
  sqrt (area * 10000) / 2 / 111320.

Definition halfSideLonDeg (lat area : R) : R :=
  sqrt (area * 10000) / 2 / (111320 * cos (lat * PI / 180)).

Definition farmSquare (lat lon area : R) : Bounds :=
  ((lat - halfSideLatDeg area, lon - halfSideLonDeg lat area),
   (lat + halfSideLatDeg area, lon + halfSideLonDeg lat area)).

Definition in_box (b : Bounds) (y x : R) : Prop :=
  south b <= y <= north b /\ west b <= x <= east b.

Definition in_interior (b : Bounds) (y x : R) : Prop :=
  south b < y < north b /\ west b < x < east b.

(** Cell (r, c) of the equal [rows] by [cols] partition of a box: band [r]
    counted from the north edge, band [c] counted from the west edge. *)
Definition partitionCell (sq : Bounds) (rows cols : nat) (r c : R) : Bounds :=
  let h := (north sq - south sq) / INR rows in
  let w := (east sq - west sq) / INR cols in
  ((north sq - (r + 1) * h, west sq + c * w),
   (north sq - r * h, west sq + (c + 1) * w)).

(** The zones of a [rows] by [cols] grid tile the box [sq]. *)
Record tiles (zone : nat -> nat -> option Bounds) (sq : Bounds)
    (rows cols : nat) : Prop := mkTiles
  { tiles_cell : forall r c, (r < rows)%nat -> (c < cols)%nat ->
      zone r c = Some (partitionCell sq rows cols (INR r) (INR c));
    tiles_cover : forall y x,
      in_box sq y x <->
      exists r c b, (r < rows)%nat /\ (c < cols)%nat /\
                    zone r c = Some b /\ in_box b y x;
    tiles_disjoint : forall r c r' c' b b' y x,
      (r < rows)%nat -> (c < cols)%nat ->
      (r' < rows)%nat -> (c' < cols)%nat ->
      zone r c = Some b -> zone r' c' = Some b' ->
      in_interior b y x -> in_interior b' y x -> r = r' /\ c = c';
    tiles_nonempty : forall r c b, (r < rows)%nat -> (c < cols)%nat ->
      zone r c = Some b -> south b < north b /\ west b < east b;
    tiles_share_rows : forall r c b b',
      (S r < rows)%nat -> (c < cols)%nat ->
      zone r c = Some b -> zone (S r) c = Some b' ->
      south b = north b' /\ west b = west b' /\ east b = east b';
    tiles_share_cols : forall r c b b',
      (r < rows)%nat -> (S c < cols)%nat ->
      zone r c = Some b -> zone r (S c) = Some b' ->
      east b = west b' /\ south b = south b' /\ north b = north b';
    tiles_north : forall c b, (c < cols)%nat ->
      zone 0%nat c = Some b -> north b = north sq;
    tiles_west : forall r b, (r < rows)%nat ->
      zone r 0%nat = Some b -> west b = west sq;
    tiles_southeast : forall b,
      zone (rows - 1)%nat (cols - 1)%nat = Some b ->
      south b = south sq /\ east b = east sq }.

End ZoneMapOverlay.

(** ** Analysis polling (FarmDetailPage) *)

Module FarmDetailPage.

(** The [status] column of the analysis tables. *)
Inductive Status : Type := pending | processing | completed | failed.

(** An analysis report as the page uses it: identifier and status; the
    results are an opaque payload, and [error_message] is the column the
    worker fills when the analysis fails. *)
Record Report : Type := mkReport
  { id : string;
    status : Status;
    results : option string;
    error_message : option string }.

(** The answer of an API call: a report, or a thrown [Error(message)]. *)
Inductive Response : Type :=
| Ok (r : Report)
| Throws (message : string).

(** What the page does while it waits. *)
Inductive Event : Type :=
| Sleep (ms : nat)
| Fetch (report_id : string).

(** The state of the page after a handler has run. *)
Inductive Outcome : Type :=
| Idle
| ReportShown (r : Report)
| AnalysisError (message : string).

Definition isCompleted (s : Status) : bool :=
  match s with completed => true | _ => false end.

Definition isFailed (s : Status) : bool :=
  match s with failed => true | _ => false end.

Definition nonterminal (s : Status) : Prop := s = pending \/ s = processing.

(** How the [while] loop ends: it falls through with the last report, or
    an exception leaves the [try] block. *)
Inductive LoopEnd : Type :=
| Exits (finalReport : Report)
| Raised (message : string).

(** The [while (attempts < 30 && finalReport.status !== 'completed')] loop.
    [getReport k] is the answer to the fetch made when [attempts = k]; one
    unit of [fuel] is one evaluation of the loop condition. *)
Fixpoint pollLoop (fuel : nat) (getReport : nat -> Response)
    (reportId : string) (attempts : nat) (finalReport : Report)
    (trace : list Event) : option (LoopEnd * list Event) :=
  match fuel with
  | O => None
  | S fuel' =>
      if (attempts <? 30)%nat && negb (isCompleted (status finalReport)) then
        if isFailed (status finalReport) then
          Some (Raised "Analysis failed", trace)
        else
          let trace1 := (trace ++ [Sleep 2000])%list in
          let trace2 := (trace1 ++ [Fetch reportId])%list in
          match getReport attempts with
          | Throws message => Some (Raised message, trace2)
          | Ok r => pollLoop fuel' getReport reportId (S attempts) r trace2
          end
      else Some (Exits finalReport, trace)
  end.

(** [err.message || fallback] of the [catch] block. *)
Definition messageOr (message fallback : string) : string :=
  if String.eqb message "" then fallback else message.

(** The body shared by the two handlers, after [if (!farm) return]:
    [initial] answers the call that requests the analysis. *)
Definition runPolling (fuel : nat) (fallback : string)
    (initial : Response) (getReport : nat -> Response)
    : option (Outcome * list Event) :=
  match initial with
  | Throws message => Some (AnalysisError (messageOr message fallback), [])
  | Ok initialReport =>
      match pollLoop fuel getReport (id initialReport) 0 initialReport [] with
      | None => None
      | Some (Raised message, trace) =>
          Some (AnalysisError (messageOr message fallback), trace)
      | Some (Exits finalReport, trace) =>
          if negb (isCompleted (status finalReport)) then
            Some (AnalysisError
                    (messageOr "Analysis timeout - please try again" fallback),
                  trace)
          else Some (ReportShown finalReport, trace)
      end
  end.

(** The loop evaluates its condition at most 31 times. *)
Definition enoughFuel : nat := 31.

Definition handleSoilHealthOnly (farm : option string)
    (analyzeSoilHealth : Response) (getSoilHealthReport : nat -> Response)
    : option (Outcome * list Event) :=
  match farm with
  | None => Some (Idle, [])
  | Some _ =>
      runPolling enoughFuel "Soil health analysis failed. Please try again."
        analyzeSoilHealth getSoilHealthReport
  end.

Definition handleROIOnly (farm : option string)
    (analyzeROI : Response) (getROIReport : nat -> Response)
    : option (Outcome * list Event) :=
  match farm with
  | None => Some (Idle, [])
  | Some _ =>
      runPolling enoughFuel "ROI analysis failed. Please try again."
        analyzeROI getROIReport
  end.

(** [n] rounds of waiting: a sleep of the fixed interval, then a fetch. *)
Fixpoint rounds (reportId : string) (n : nat) : list Event :=
  match n with
  | O => []
  | S n' => (rounds reportId n' ++ [Sleep 2000; Fetch reportId])%list
  end.

Definition isFetch (e : Event) : bool :=
  match e with Fetch _ => true | Sleep _ => false end.

Definition fetches (trace : list Event) : nat :=
  List.length (List.filter isFetch trace).

(** Every two consecutive fetches are separated by exactly one sleep, of
    the fixed interval. *)
Fixpoint sleepsBetween (trace : list Event) : bool :=
  match trace with
  | Fetch _ :: ((Sleep 2000 :: Fetch _ :: _) as rest) => sleepsBetween rest
  | Fetch _ :: [] => true
  | Sleep 2000 :: rest => sleepsBetween rest
  | [] => true
  | _ => false
  end.

End FarmDetailPage.

(** ** The farms table (001_initial_schema.sql) *)

Module Schema.

(** A row of [public.farms]; the [NOT NULL] columns hold a value, the two
    dates may be [NULL].  A [DATE] is a day number.  The generated columns
    ([id], [created_at], [updated_at]) play no part in the checks. *)
Record FarmRow : Type := mkFarmRow
  { user_id : string;
    name : string;
    location_lat : Q;
    location_lng : Q;
    area_hectares : Q;
    crop_type : string;
    planting_date : option Z;
    harvest_date : option Z }.

(** [CHECK (area_hectares > 0)] *)
Definition check_area (r : FarmRow) : bool :=
  negb (Qle_bool (area_hectares r) 0).

(** [CONSTRAINT valid_coordinates] *)
Definition valid_coordinates (r : FarmRow) : bool :=
  Qle_bool (-90) (location_lat r) && Qle_bool (location_lat r) 90
  && Qle_bool (-180) (location_lng r) && Qle_bool (location_lng r) 180.

(** [CONSTRAINT valid_dates] *)
Definition valid_dates (r : FarmRow) : bool :=
  match planting_date r, harvest_date r with
  | None, _ => true
  | _, None => true
  | Some p, Some h => (p <? h)%Z
  end.

Definition farms_check (r : FarmRow) : bool :=
  check_area r && valid_coordinates r && valid_dates r.

Definition Farms : Type := list FarmRow.

(** [INSERT INTO farms]: the row is stored only if every check passes. *)
Definition insertFarm (db : Farms) (r : FarmRow) : option Farms :=
  if farms_check r then Some (r :: db) else None.

(** The Farm invariant in the words of the specification. *)
Definition farm_invariant (r : FarmRow) : Prop :=
  0 < area_hectares r
  /\ -90 <= location_lat r <= 90
  /\ -180 <= location_lng r <= 180
  /\ forall p h, planting_date r = Some p -> harvest_date r = Some h ->
                 (p < h)%Z.

(** [UPDATE farms SET ... WHERE id = ...] on the [i]-th row: the checks
    are evaluated on the new row; no row matched changes nothing. *)
Definition updateFarm (db : Farms) (i : nat) (r : FarmRow) : option Farms :=
  if (i <? List.length db)%nat then
    if farms_check r then Some (firstn i db ++ r :: skipn (S i) db)%list
    else None
  else Some db.

(** [DELETE FROM farms WHERE id = ...] on the [i]-th row. *)
Definition deleteFarm (db : Farms) (i : nat) : Farms :=
  (firstn i db ++ skipn (S i) db)%list.

(** The tables reachable from the empty one by inserts, updates and
    deletes. *)
Inductive stored : Farms -> Prop :=
| stored_empty : stored []
| stored_insert db r db' :
    stored db -> insertFarm db r = Some db' -> stored db'
| stored_update db i r db' :
    stored db -> updateFarm db i r = Some db' -> stored db'
| stored_delete db i :
    stored db -> stored (deleteFarm db i).

End Schema.

(** ** The new-farm form (NewFarmPage) *)

Module NewFarmPage.

Record FormData : Type := mkFormData
  { name : string;
    location_lat : option number;
    location_lng : option number;
    area_hectares : string;
    crop_type : string;
    planting_date : string;
    harvest_date : string }.

Record FormErrors : Type := mkFormErrors
  { name_error : option string;
    location_error : option string;
    area_hectares_error : option string;
    crop_type_error : option string;
    planting_date_error : option string;
    harvest_date_error : option string;
    general_error : option string }.

(** What the page takes from its environment: the built-ins
    [String.prototype.trim], [parseFloat] and [new Date(string)] (a
    timestamp, [None] for an invalid date), the clock with the two dates
    derived from it by [setFullYear], the cast of a date string to [DATE]
    by the database ([None]: the cast fails), and the message of a
    failed insert.  The [length] of a string is taken as [String.length]. *)
Record Env : Type := mkEnv
  { trim : string -> string;
    parseFloat : string -> number;
    newDate : string -> option Z;
    today : Z;
    oneYearAgo : Z;
    oneYearFromNow : Z;
    toDate : string -> option Z;
    insertErrorMessage : string }.

(** Truthiness of a nullable number: [null], [0] and [NaN] are falsy. *)
Definition truthy (x : option number) : bool :=
  match x with
  | None => false
  | Some NaN => false
  | Some (Num q) => negb (Qeq_bool q 0)
  | Some _ => true
  end.

(** [a > b], [a < b], [a <= b] on [Date] objects; a comparison with an
    invalid date is false. *)
Definition date_gtb (a b : option Z) : bool :=
  match a, b with Some x, Some y => (y <? x)%Z | _, _ => false end.

Definition date_ltb (a b : option Z) : bool :=
  match a, b with Some x, Some y => (x <? y)%Z | _, _ => false end.

Definition date_leb (a b : option Z) : bool :=
  match a, b with Some x, Some y => (x <=? y)%Z | _, _ => false end.

Definition nonempty (s : string) : bool := negb (String.eqb s "").

Definition nameError (env : Env) (formData : FormData) : option string :=
  if negb (nonempty (trim env (name formData))) then
    Some "Farm name is required"
  else if (String.length (trim env (name formData)) <? 2)%nat then
    Some "Farm name must be at least 2 characters long"
  else if (100 <? String.length (trim env (name formData)))%nat then
    Some "Farm name must be less than 100 characters"
  else None.

Definition locationError (formData : FormData) : option string :=
  if negb (truthy (location_lat formData))
     || negb (truthy (location_lng formData)) then
    Some "Please select a location on the map"
  else None.

Definition areaError (env : Env) (formData : FormData) : option string :=
  if negb (nonempty (trim env (area_hectares formData))) then
    Some "Farm area is required"
  else
    let area := parseFloat env (area_hectares formData) in
    if isNaN area || num_leb area 0 then
      Some "Please enter a valid area greater than 0"
    else if num_gtb area 100000 then
      Some "Farm area seems too large. Please verify the value."
    else None.

Definition cropError (env : Env) (formData : FormData) : option string :=
  if negb (nonempty (trim env (crop_type formData))) then
    Some "Crop type is required"
  else if (String.length (trim env (crop_type formData)) <? 2)%nat then
    Some "Crop type must be at least 2 characters long"
  else None.

Definition plantingError (env : Env) (formData : FormData) : option string :=
  if negb (nonempty (planting_date formData)) then
    Some "Planting date is required"
  else
    let plantingDate := newDate env (planting_date formData) in
    if date_gtb plantingDate (Some (today env)) then
      Some "Planting date cannot be in the future"
    else if date_ltb plantingDate (Some (oneYearAgo env)) then
      Some "Planting date cannot be more than one year ago"
    else None.

Definition harvestError (env : Env) (formData : FormData) : option string :=
  if negb (nonempty (harvest_date formData)) then
    Some "Expected harvest date is required"
  else
    let harvestDate := newDate env (harvest_date formData) in
    let plantingDate := newDate env (planting_date formData) in
    if nonempty (planting_date formData)
       && date_leb harvestDate plantingDate then
      Some "Harvest date must be after planting date"
    else if date_gtb harvestDate (Some (oneYearFromNow env)) then
      Some "Harvest date cannot be more than one year from now"
    else None.

(** [newErrors] as [validateForm] fills it. *)
Definition newErrors (env : Env) (formData : FormData) : FormErrors :=
  mkFormErrors (nameError env formData) (locationError formData)
    (areaError env formData) (cropError env formData)
    (plantingError env formData) (harvestError env formData) None.

Definition isNone {A : Type} (o : option A) : bool :=
  match o with None => true | Some _ => false end.

(** [Object.keys(newErrors).length === 0] *)
Definition noErrors (e : FormErrors) : bool :=
  isNone (name_error e) && isNone (location_error e)
  && isNone (area_hectares_error e) && isNone (crop_type_error e)
  && isNone (planting_date_error e) && isNone (harvest_date_error e)
  && isNone (general_error e).

Definition validateForm (env : Env) (formData : FormData) : bool :=
  noErrors (newErrors env formData).

(** The object [handleSubmit] passes to [createFarm]. *)
Record FarmData : Type := mkFarmData
  { fd_user_id : string;
    fd_name : string;
    fd_location_lat : option number;
    fd_location_lng : option number;
    fd_area_hectares : number;
    fd_crop_type : string;
    fd_planting_date : string;
    fd_harvest_date : string }.

Definition finite (x : number) : option Q :=
  match x with Num q => Some q | _ => None end.

(** Modelled from the spec: [createFarm] of lib/supabase, which is not
    among the sources; it creates the farm record, that is, inserts the
    data as one row of the [farms] table.  A value that is no finite
    number, or a date the database cannot cast, makes the insert fail. *)
Definition createFarm (env : Env) (farmData : FarmData) (db : Schema.Farms)
    : option Schema.Farms :=
  match fd_location_lat farmData, fd_location_lng farmData with
  | Some lat, Some lng =>
      match finite lat, finite lng, finite (fd_area_hectares farmData),
            toDate env (fd_planting_date farmData),
            toDate env (fd_harvest_date farmData) with
      | Some lat', Some lng', Some area, Some p, Some h =>
          Schema.insertFarm db
            (Schema.mkFarmRow (fd_user_id farmData) (fd_name farmData)
               lat' lng' area (fd_crop_type farmData) (Some p) (Some h))
      | _, _, _, _, _ => None
      end
  | _, _ => None
  end.

Inductive Submitted : Type :=
| Redirected
| Errors (e : FormErrors).

Definition generalError (message : string) : FormErrors :=
  mkFormErrors None None None None None None
    (Some (if String.eqb message ""
           then "Failed to create farm. Please try again."
           else message)).

Definition handleSubmit (env : Env) (user : string) (formData : FormData)
    (db : Schema.Farms) : Submitted * Schema.Farms :=
  if negb (validateForm env formData) then
    (Errors (newErrors env formData), db)
  else
    let farmData :=
      mkFarmData user (trim env (name formData))
        (location_lat formData) (location_lng formData)
        (parseFloat env (area_hectares formData))
        (trim env (crop_type formData))
        (planting_date formData) (harvest_date formData) in
    match createFarm env farmData db with
    | Some db' => (Redirected, db')
    | None => (Errors (generalError (insertErrorMessage env)), db)
    end.

(** The geometry and the dates a form asks to store satisfy the Farm
    invariant. *)
Definition input_valid (env : Env) (formData : FormData) : Prop :=
  exists lat lng area,
    location_lat formData = Some (Num lat)
    /\ location_lng formData = Some (Num lng)
    /\ parseFloat env (area_hectares formData) = Num area
    /\ 0 < area /\ -90 <= lat <= 90 /\ -180 <= lng <= 180
    /\ forall p h, toDate env (planting_date formData) = Some p ->
                   toDate env (harvest_date formData) = Some h ->
                   (p < h)%Z.

(** A sample environment: decimal literals and ISO dates of one season. *)
Definition sampleEnv : Env :=
  mkEnv (fun s => s)
    (fun s => if String.eqb s "7.5" then Num (15 # 2) else NaN)
    (fun s => if String.eqb s "2024-03-01" then Some 19783%Z
              else if String.eqb s "2024-09-01" then Some 19967%Z
              else None)
    19900%Z 19535%Z 20265%Z
    (fun s => if String.eqb s "2024-03-01" then Some 19783%Z
              else if String.eqb s "2024-09-01" then Some 19967%Z
              else None)
    "insert failed".

Definition sampleForm : FormData :=
  mkFormData "Green Acres" (Some (Num (3 # 1))) (Some (Num (36 # 1)))
    "7.5" "Maize" "2024-03-01" "2024-09-01".

End NewFarmPage.

From Stdlib Require Import DecimalString Sorted Permutation.

(** ** Arrays: [sort] with a comparator and [slice(0, end)] *)

Module JsArray.

(** [Array.prototype.sort(compare)] is stable, and for a consistent
    comparator its result is determined: the stable sort.  [insertBy] puts
    an element before the first one it does not come after. *)
Fixpoint insertBy {A : Type} (compare : A -> A -> Q) (x : A) (l : list A)
    : list A :=
  match l with
  | [] => [x]
  | y :: l' =>
      if Qle_bool (compare x y) 0 then x :: y :: l'
      else y :: insertBy compare x l'
  end.

Definition sortBy {A : Type} (compare : A -> A -> Q) (l : list A) : list A :=
  fold_right (insertBy compare) [] l.

(** [l.slice(0, end)]: a negative [end] counts from the end of the array. *)
Definition slice0 {A : Type} (l : list A) (last : Z) : list A :=
  firstn (Z.to_nat (if (last <? 0)%Z then Z.of_nat (List.length l) + last
                    else last)) l.

End JsArray.

(** ** Zone records and the lists built from them *)

(** The [Zone] interface of the zone components; the numbers of a zone
    arrive as JSON and are finite. *)
Record Zone : Type := mkZone
  { zone_id : string;
    row : Z;
    col : Z;
    health : Q;
    zone_status : ZoneStatus;
    ndvi : Q;
    ndwi : Q;
    moisture : Q;
    alerts : list string;
    recommendations : list string;
    data_quality : Q }.

Module ZoneAlertList.

(** [zones.filter(z => z.health < 55).sort((a, b) => a.health - b.health)
    .slice(0, maxAlerts)] of HealthGauge.tsx. *)
Definition isProblemZone (z : Zone) : bool := negb (Qle_bool 55 (health z)).

Definition byHealth (a b : Zone) : Q := health a - health b.

Definition problemZones (zones : list Zone) (maxAlerts : Z) : list Zone :=
  JsArray.slice0 (JsArray.sortBy byHealth (List.filter isProblemZone zones))
    maxAlerts.

(** The list shows the all-clear card when no problem zone is left. *)
Definition allClear (zones : list Zone) (maxAlerts : Z) : bool :=
  (List.length (problemZones zones maxAlerts) =? 0)%nat.

End ZoneAlertList.

Module ROIDisplay.

(** A crop recommendation, with the fields the display lists by name. *)
Record CropRecommendation : Type := mkCropRecommendation
  { crop_name : string;
    crop_type : string;
    roi_percentage : Q;
    risk_level : string }.

Definition byRoiDescending (a b : CropRecommendation) : Q :=
  roi_percentage b - roi_percentage a.

(** [getTopRecommendations]: [sort] orders the caller's array in place and
    returns it, [slice] copies its first [count] elements.  The result is
    the pair of the returned list and the caller's array after the call. *)
Definition getTopRecommendations (recommendations : list CropRecommendation)
    (count : Z) : list CropRecommendation * list CropRecommendation :=
  let sorted := JsArray.sortBy byRoiDescending recommendations in
  (JsArray.slice0 sorted count, sorted).

End ROIDisplay.

Module AdminDashboard.

Inductive Filter : Type := All | Healthy | AtRisk | Critical.

Record FarmSummary : Type := mkFarmSummary
  { id : string;
    name : string;
    owner : string;
    area : Q;
    health : Q;
    status : ZoneStatus;
    lastAnalysis : string;
    problemZones : nat }.

Definition statusIs (s t : ZoneStatus) : bool :=
  match s, t with
  | healthy, healthy | moderate, moderate
  | degraded, degraded | critical, critical => true
  | _, _ => false
  end.

(** The predicate of [farms.filter(...)]. *)
Definition keeps (filter : Filter) (farm : FarmSummary) : bool :=
  match filter with
  | All => true
  | Healthy => statusIs (status farm) healthy
  | AtRisk => statusIs (status farm) moderate
              || statusIs (status farm) degraded
  | Critical => statusIs (status farm) critical
  end.

Definition filteredFarms (filter : Filter) (farms : list FarmSummary)
    : list FarmSummary :=
  List.filter (keeps filter) farms.

End AdminDashboard.

Module ZoneMapGrid.

Definition Grid : Type := list (list (option Zone)).

(** [Array(rows).fill(null).map(() => Array(cols).fill(null))] *)
Definition emptyGrid (rows cols : nat) : Grid :=
  repeat (repeat None cols) rows.

Fixpoint updateAt {A : Type} (i : nat) (f : A -> A) (l : list A) : list A :=
  match l, i with
  | [], _ => []
  | x :: l', O => f x :: l'
  | x :: l', S i' => x :: updateAt i' f l'
  end.

(** [grid[r][c] = zone] for indices inside the grid. *)
Definition setCell (grid : Grid) (r c : nat) (zone : Zone) : Grid :=
  updateAt r (updateAt c (fun _ => Some zone)) grid.

(** One step of [zones.forEach]: the guard compares from above only.  A
    negative row passes it, [grid[zone.row]] is then [undefined] and the
    assignment throws a TypeError ([None]); a negative column sets a
    property that is no element of the row. *)
Definition placeZone (rows cols : nat) (grid : option Grid) (zone : Zone)
    : option Grid :=
  match grid with
  | None => None
  | Some g =>
      if (row zone <? Z.of_nat rows)%Z && (col zone <? Z.of_nat cols)%Z then
        if (row zone <? 0)%Z then None
        else if (col zone <? 0)%Z then Some g
        else Some (setCell g (Z.to_nat (row zone)) (Z.to_nat (col zone)) zone)
      else Some g
  end.

Definition buildGrid (rows cols : nat) (zones : list Zone) : option Grid :=
  fold_left (placeZone rows cols) zones (Some (emptyGrid rows cols)).

(** A grid of [rows] rows, each of [cols] cells. *)
Definition shape (rows cols : nat) (g : Grid) : Prop :=
  List.length g = rows /\ Forall (fun r => List.length r = cols) g.

(** [grid[r][c]] *)
Definition cell (grid : Grid) (r c : nat) : option Zone :=
  nth c (nth r grid []) None.

(** The last zone of the list that names the cell. *)
Definition lastAt (zones : list Zone) (r c : nat) : option Zone :=
  find (fun z => (row z =? Z.of_nat r)%Z && (col z =? Z.of_nat c)%Z)
       (rev zones).

End ZoneMapGrid.

(** ** Manual coordinates (FarmLocationSelector) *)

Module FarmLocationSelector.

Record ManualCoords : Type := mkManualCoords
  { latitude : string; longitude : string }.

Inductive Field : Type := LatitudeField | LongitudeField.

Definition isValidCoordinate (lat lng : number) : bool :=
  num_geb lat (-90) && num_leb lat 90
  && num_geb lng (-180) && num_leb lng 180.

(** [handleManualCoordChange]: the new text of the edited field is stored;
    the result also tells with which pair [onLocationSelect] is called, if
    it is.  [parseFloat] is the built-in. *)
Definition handleManualCoordChange (parseFloat : string -> number)
    (manualCoords : ManualCoords) (field : Field) (value : string)
    : ManualCoords * option (number * number) :=
  let coords :=
    match field with
    | LatitudeField => mkManualCoords value (longitude manualCoords)
    | LongitudeField => mkManualCoords (latitude manualCoords) value
    end in
  let lat := match field with
             | LatitudeField => parseFloat value
             | LongitudeField => parseFloat (latitude manualCoords)
             end in
  let lng := match field with
             | LongitudeField => parseFloat value
             | LatitudeField => parseFloat (longitude manualCoords)
             end in
  if negb (isNaN lat) && negb (isNaN lng) && isValidCoordinate lat lng
  then (coords, Some (lat, lng))
  else (coords, None).

(** [validateCurrentCoords]: the verdict and the text of [locationError]. *)
Definition validateCurrentCoords (parseFloat : string -> number)
    (manualCoords : ManualCoords) : bool * string :=
  let lat := parseFloat (latitude manualCoords) in
  let lng := parseFloat (longitude manualCoords) in
  if isNaN lat || isNaN lng then
    (false, "Please enter valid numeric coordinates")
  else if negb (isValidCoordinate lat lng) then
    (false, "Latitude must be between -90 and 90, Longitude must be between -180 and 180")
  else (true, "").

End FarmLocationSelector.

(** ** Days until harvest (DashboardPage, FarmDetailPage) *)

Module Harvest.

(** [1000 * 60 * 60 * 24] *)
Definition msPerDay : Z := 1000 * 60 * 60 * 24.

(** [Math.ceil(diffTime / msPerDay)] for timestamps in whole milliseconds;
    [None] is NaN, the difference with an invalid date. *)
Definition diffDays (today : Z) (harvest : option Z) : option Z :=
  match harvest with
  | None => None
  | Some h => Some (- ((today - h) / msPerDay))%Z
  end.

(** The decimal text of an integer, as a template literal prints it. *)
Definition numberText (n : option Z) : string :=
  match n with
  | None => "NaN"
  | Some z => NilZero.string_of_int (Z.to_int z)
  end.

Record Badge : Type := mkBadge
  { text : string; color : string; urgent : bool }.

(** [getDaysUntilHarvest] of the dashboard's farm list. *)
Definition getDaysUntilHarvestBadge (today : Z) (harvest : option Z) : Badge :=
  match diffDays today harvest with
  | Some d =>
      if (d <? 0)%Z then mkBadge "Overdue" "text-red-600" true
      else if (d =? 0)%Z then mkBadge "Today" "text-amber-600" true
      else if (d <=? 7)%Z then
        mkBadge (numberText (Some d) ++ "d") "text-amber-600" true
      else if (d <=? 30)%Z then
        mkBadge (numberText (Some d) ++ "d") "text-blue-600" false
      else mkBadge (numberText (Some d) ++ "d") "text-gray-600" false
  | None => mkBadge (numberText None ++ "d") "text-gray-600" false
  end.

(** [getDaysUntilHarvest] of the farm detail page. *)
Definition getDaysUntilHarvest (today : Z) (harvest : option Z) : string :=
  match diffDays today harvest with
  | Some d =>
      if (d <? 0)%Z then numberText (Some (Z.abs d)) ++ " days overdue"
      else if (d =? 0)%Z then "Today"
      else if (d =? 1)%Z then "1 day"
      else numberText (Some d) ++ " days"
  | None => numberText None ++ " days"
  end.

End Harvest.

(** ** Zone styling on the map overlay (ZoneMapOverlay) *)

Module ZoneOverlayStyle.

Definition getZoneColor (health : number) : string :=
  if num_geb health 75 then "#22c55e"
  else if num_geb health 55 then "#eab308"
  else if num_geb health 35 then "#f97316"
  else "#ef4444".

Definition getZoneFillOpacity (health : number) : Q :=
  if num_geb health 75 then 3 # 10
  else if num_geb health 55 then 4 # 10
  else if num_geb health 35 then 5 # 10
  else 6 # 10.

End ZoneOverlayStyle.

(** ** Time spent sleeping by a polling run *)

Fixpoint sleepTime (trace : list FarmDetailPage.Event) : nat :=
  match trace with
  | [] => 0
  | FarmDetailPage.Sleep ms :: rest => ms + sleepTime rest
  | FarmDetailPage.Fetch _ :: rest => sleepTime rest
  end.

(** * Theorems *)

Lemma Qle_bool_false_lt (a b : Q) : Qle_bool a b = false -> b < a.
Proof.
  intros H. apply Qnot_le_lt. intros Hle.
  apply Qle_bool_iff in Hle. congruence.
Qed.

Lemma Qle_bool_true_le (a b : Q) : Qle_bool a b = true -> a <= b.
Proof. apply Qle_bool_iff. Qed.

Lemma Qle_bool_of_le (a b : Q) : a <= b -> Qle_bool a b = true.
Proof. apply Qle_bool_iff. Qed.

Lemma Qle_bool_of_lt (a b : Q) : b < a -> Qle_bool a b = false.
Proof.
  intros H. destruct (Qle_bool a b) eqn:E; [|reflexivity].
  apply Qle_bool_iff in E. exfalso. apply (Qlt_not_le _ _ H E).
Qed.

Lemma statusLabel_inj (s t : ZoneStatus) :
  ZoneDetail.statusLabel s = ZoneDetail.statusLabel t -> s = t.
Proof. destruct s, t; simpl; intros H; (reflexivity || discriminate H). Qed.

(** C2. Health-score classification is total on [0,100]: every score is
    shown as exactly one category, and that category is the one of the
    ladder (>= 75 healthy, 55..75 moderate, 35..55 degraded, < 35 critical),
    each boundary belonging to the higher band. *)
Theorem classification_total_ladder (q : Q) :
  0 <= q -> q <= 100 ->
  (exists s, shows (Num q) s /\ classify_spec q s
             /\ forall t, shows (Num q) t -> t = s)
  /\ (forall s, classify_spec q s -> shows (Num q) s)
  /\ shows (Num 75) healthy /\ shows (Num 55) moderate
  /\ shows (Num 35) degraded.
Proof.
  intros _ _.
  assert (Hex : exists s, shows (Num q) s /\ classify_spec q s).
  { unfold shows, HealthGauge.getHealthConfig, ZoneMap.getHealthColor; simpl.
    destruct (Qle_bool 75 q) eqn:E75.
    { exists healthy; simpl. auto using Qle_bool_true_le. }
    destruct (Qle_bool 55 q) eqn:E55.
    { exists moderate; simpl.
      auto using Qle_bool_true_le, Qle_bool_false_lt. }
    destruct (Qle_bool 35 q) eqn:E35.
    { exists degraded; simpl.
      auto using Qle_bool_true_le, Qle_bool_false_lt. }
    exists critical; simpl. auto using Qle_bool_false_lt. }
  assert (Huniq : forall s t, shows (Num q) s -> shows (Num q) t -> t = s).
  { intros s t [Hs _] [Ht _]. apply statusLabel_inj. congruence. }
  split; [|split].
  - destruct Hex as [s [Hs Hc]]. exists s. repeat split; try assumption.
    + apply Hs.
    + apply Hs.
    + intros t Ht. apply (Huniq s t); assumption.
  - intros s Hc. destruct Hex as [s' [Hs' Hc']].
    assert (s = s') as ->; [|assumption].
    destruct s, s'; simpl in *; try reflexivity; exfalso; qlra.
  - repeat split.
Qed.

Lemma classification_total_ladder_witness :
  exists s, shows (Num 75) s /\ classify_spec 75 s
            /\ forall t, shows (Num 75) t -> t = s.
Proof.
  apply (classification_total_ladder 75); [qlra | qlra].
Defined.

(** ** Zone bounding boxes *)

Section ZoneBounds.

Import ZoneMapOverlay.
Local Open Scope R_scope.

Lemma fdiv_some (a b : R) : b <> 0 -> fdiv a b = Some (a / b).
Proof. intros Hb. unfold fdiv. destruct (Req_EM_T b 0); [contradiction|reflexivity]. Qed.

Lemma fdiv_zero (a : R) : fdiv a 0 = None.
Proof. unfold fdiv. destruct (Req_EM_T 0 0) as [_|H]; [reflexivity|]. exfalso; apply H; reflexivity. Qed.

Lemma fsqrt_some (a : R) : 0 <= a -> fsqrt a = Some (sqrt a).
Proof. intros Ha. unfold fsqrt. destruct (Rlt_dec a 0); [lra|reflexivity]. Qed.

Lemma lonDivisor_pos (lat : R) : -90 < lat < 90 -> 0 < lonDivisor lat.
Proof.
  intros [Hlo Hhi]. unfold lonDivisor.
  assert (Hpi := PI_RGT_0).
  apply Rmult_lt_0_compat; [lra|].
  apply cos_gt_0; nra.
Qed.

Lemma lonDivisor_pole : lonDivisor 90 = 0 /\ lonDivisor (-90) = 0.
Proof.
  unfold lonDivisor. split.
  - replace (90 * PI / 180) with (PI / 2) by field.
    rewrite cos_PI2. ring.
  - replace (-90 * PI / 180) with (- (PI / 2)) by field.
    rewrite cos_neg, cos_PI2. ring.
Qed.

(** What the function computes whenever every division is defined: the
    cell of the lattice through the farm square, at any real index. *)
Lemma calculateZoneBounds_eq (lat lon area rows cols r c : R) :
  0 <= area -> lonDivisor lat <> 0 -> rows <> 0 -> cols <> 0 ->
  calculateZoneBounds lat lon area rows cols r c =
  let sq := farmSquare lat lon area in
  let h := (north sq - south sq) / rows in
  let w := (east sq - west sq) / cols in
  Some ((north sq - r * h - h, west sq + c * w),
        (north sq - r * h, west sq + c * w + w)).
Proof.
  intros Ha Hd Hr Hc. unfold calculateZoneBounds.
  rewrite fsqrt_some by lra. cbn [bind].
  rewrite (fdiv_some 1 111320) by lra. cbn [bind].
  rewrite (fdiv_some 1 (lonDivisor lat)) by assumption. cbn [bind].
  rewrite (fdiv_some _ 2) by lra. cbn [bind].
  rewrite (fdiv_some _ rows) by assumption. cbn [bind].
  rewrite (fdiv_some _ cols) by assumption. cbn [bind].
  unfold farmSquare, halfSideLatDeg, halfSideLonDeg, north, south, east, west.
  cbn [fst snd]. unfold lonDivisor in *.
  set (s := sqrt (area * 10000)).
  set (k := cos (lat * PI / 180)) in *.
  assert (Hk : k <> 0) by (intros E; apply Hd; rewrite E; ring).
  f_equal. f_equal; f_equal; field; auto.
Qed.

(** One direction of the grid: [n] bands of height [h] hung below [a]. *)
Lemma band_cover (n : nat) (a h y : R) :
  0 < h -> (0 < n)%nat -> a - INR n * h <= y <= a ->
  exists r, (r < n)%nat /\ a - (INR r + 1) * h <= y <= a - INR r * h.
Proof.
  intros Hh. induction n as [|n IH]; intros Hn Hy; [lia|].
  rewrite S_INR in Hy.
  destruct n as [|n].
  - exists 0%nat. simpl in *. split; [lia|lra].
  - destruct (Rle_dec (a - INR (S n) * h) y) as [Hle|Hgt].
    + destruct IH as [r [Hr Hb]]; [lia|lra|].
      exists r. split; [lia|assumption].
    + exists (S n). split; [lia|]. lra.
Qed.

Lemma band_unique (a h y : R) (r r' : nat) :
  0 < h ->
  a - (INR r + 1) * h < y < a - INR r * h ->
  a - (INR r' + 1) * h < y < a - INR r' * h ->
  r = r'.
Proof.
  intros Hh H1 H2.
  destruct (Nat.lt_trichotomy r r') as [Hlt|[Heq|Hlt]]; [|assumption|];
    exfalso; apply le_INR in Hlt; rewrite S_INR in Hlt; nra.
Qed.

Lemma band_inside (n r : nat) (a h : R) :
  0 < h -> (r < n)%nat ->
  a - INR n * h <= a - (INR r + 1) * h /\ a - INR r * h <= a.
Proof.
  intros Hh Hr. apply le_INR in Hr. rewrite S_INR in Hr.
  assert (H0 := pos_INR r). nra.
Qed.

Lemma partition_tiles (zone : nat -> nat -> option Bounds) (sq : Bounds)
    (rows cols : nat) :
  south sq < north sq -> west sq < east sq ->
  (0 < rows)%nat -> (0 < cols)%nat ->
  (forall r c, (r < rows)%nat -> (c < cols)%nat ->
     zone r c = Some (partitionCell sq rows cols (INR r) (INR c))) ->
  tiles zone sq rows cols.
Proof.
  destruct sq as [[S0 W0] [N0 E0]].
  unfold partitionCell, north, south, east, west; cbn [fst snd].
  intros HNS HWE Hrows Hcols Hz.
  assert (HR : 0 < INR rows) by (apply lt_0_INR; assumption).
  assert (HC : 0 < INR cols) by (apply lt_0_INR; assumption).
  set (h := (N0 - S0) / INR rows) in *.
  set (w := (E0 - W0) / INR cols) in *.
  assert (Hh : 0 < h) by (apply Rdiv_lt_0_compat; lra).
  assert (Hw : 0 < w) by (apply Rdiv_lt_0_compat; lra).
  assert (Hrh : INR rows * h = N0 - S0) by (unfold h; field; lra).
  assert (Hcw : INR cols * w = E0 - W0) by (unfold w; field; lra).
  constructor; unfold in_box, in_interior, north, south, east, west;
    cbn [fst snd].
  - exact Hz.
  - intros y x. split.
    + intros [Hy Hx].
      destruct (band_cover rows N0 h y Hh Hrows) as [r [Hr Hry]]; [lra|].
      destruct (band_cover cols (- W0) w (- x) Hw Hcols) as [c [Hc Hcx]];
        [lra|].
      exists r, c, ((N0 - (INR r + 1) * h, W0 + INR c * w),
                    (N0 - INR r * h, W0 + (INR c + 1) * w)).
      rewrite (Hz r c Hr Hc). cbn [fst snd].
      repeat split; try assumption; try reflexivity; lra.
    + intros [r [c [b [Hr [Hc [Hb [Hy Hx]]]]]]].
      rewrite (Hz r c Hr Hc) in Hb. injection Hb as <-. cbn [fst snd] in *.
      destruct (band_inside rows r N0 h Hh Hr).
      destruct (band_inside cols c (- W0) w Hw Hc).
      lra.
  - intros r c r' c' b b' y x Hr Hc Hr' Hc' Hb Hb' [Hy Hx] [Hy' Hx'].
    rewrite (Hz r c Hr Hc) in Hb. injection Hb as <-.
    rewrite (Hz r' c' Hr' Hc') in Hb'. injection Hb' as <-.
    cbn [fst snd] in *. split.
    + apply (band_unique N0 h y r r' Hh); lra.
    + apply (band_unique (- W0) w (- x) c c' Hw); lra.
  - intros r c b Hr Hc Hb.
    rewrite (Hz r c Hr Hc) in Hb. injection Hb as <-. cbn [fst snd]. lra.
  - intros r c b b' Hr Hc Hb Hb'.
    rewrite (Hz r c) in Hb by lia. injection Hb as <-.
    rewrite (Hz (S r) c Hr Hc), S_INR in Hb'. injection Hb' as <-.
    cbn [fst snd]. repeat split; ring.
  - intros r c b b' Hr Hc Hb Hb'.
    rewrite (Hz r c) in Hb by lia. injection Hb as <-.
    rewrite (Hz r (S c) Hr Hc), S_INR in Hb'. injection Hb' as <-.
    cbn [fst snd]. repeat split; ring.
  - intros c b Hc Hb.
    rewrite (Hz 0%nat c Hrows Hc) in Hb. injection Hb as <-.
    cbn [fst snd INR]. ring.
  - intros r b Hr Hb.
    rewrite (Hz r 0%nat Hr Hcols) in Hb. injection Hb as <-.
    cbn [fst snd INR]. ring.
  - intros b Hb.
    rewrite (Hz (rows - 1)%nat (cols - 1)%nat) in Hb by lia.
    injection Hb as <-. cbn [fst snd].
    rewrite !minus_INR by lia. cbn [INR]. split; nra.
Qed.

Lemma farmSquare_nonempty (lat lon area : R) :
  -90 < lat < 90 -> 0 < area ->
  south (farmSquare lat lon area) < north (farmSquare lat lon area)
  /\ west (farmSquare lat lon area) < east (farmSquare lat lon area).
Proof.
  intros Hlat Ha.
  assert (Hs : 0 < sqrt (area * 10000)) by (apply sqrt_lt_R0; lra).
  assert (Hd := lonDivisor_pos lat Hlat). unfold lonDivisor in Hd.
  unfold farmSquare, halfSideLatDeg, halfSideLonDeg, north, south, east, west.
  cbn [fst snd].
  assert (0 < sqrt (area * 10000) / 2 / 111320)
    by (repeat apply Rdiv_lt_0_compat; lra).
  assert (0 < sqrt (area * 10000) / 2 / (111320 * cos (lat * PI / 180)))
    by (repeat apply Rdiv_lt_0_compat; lra).
  lra.
Qed.

Lemma zoneAt_cell (lat lon area : R) (rows cols r c : nat) :
  -90 < lat < 90 -> 0 <= area -> (0 < rows)%nat -> (0 < cols)%nat ->
  zoneAt lat lon area rows cols r c =
  Some (partitionCell (farmSquare lat lon area) rows cols (INR r) (INR c)).
Proof.
  intros Hlat Ha Hr Hc. unfold zoneAt.
  assert (Hd := lonDivisor_pos lat Hlat).
  apply lt_0_INR in Hr. apply lt_0_INR in Hc.
  rewrite calculateZoneBounds_eq by lra.
  cbv zeta. unfold partitionCell.
  apply f_equal. apply f_equal2; apply f_equal2; ring.
Qed.

Lemma zoneAtZ_cell (lat lon area : R) (rows cols : nat) (r c : Z) :
  -90 < lat < 90 -> 0 <= area -> (0 < rows)%nat -> (0 < cols)%nat ->
  zoneAtZ lat lon area rows cols r c =
  Some (partitionCell (farmSquare lat lon area) rows cols (IZR r) (IZR c)).
Proof.
  intros Hlat Ha Hr Hc. unfold zoneAtZ.
  assert (Hd := lonDivisor_pos lat Hlat).
  apply lt_0_INR in Hr. apply lt_0_INR in Hc.
  rewrite calculateZoneBounds_eq by lra.
  cbv zeta. unfold partitionCell.
  apply f_equal. apply f_equal2; apply f_equal2; ring.
Qed.

Lemma calculateZoneBounds_pole (lat lon area rows cols r c : R) :
  0 <= area -> lonDivisor lat = 0 ->
  calculateZoneBounds lat lon area rows cols r c = None.
Proof.
  intros Ha Hd. unfold calculateZoneBounds.
  rewrite fsqrt_some by lra. cbn [bind].
  rewrite (fdiv_some 1 111320) by lra. cbn [bind].
  rewrite Hd, fdiv_zero. reflexivity.
Qed.

End ZoneBounds.

Import ZoneMapOverlay.









(** ** Polling *)

Section Polling.

Import FarmDetailPage.

Variable getReport : nat -> Response.
Variable reportId : string.

Lemma rounds_front (n : nat) :
  rounds reportId (S n) =
  (Sleep 2000 :: Fetch reportId :: rounds reportId n)%list.
Proof.
  induction n as [|n IH]; [reflexivity|].
  change (rounds reportId (S (S n)))
    with (rounds reportId (S n) ++ [Sleep 2000; Fetch reportId])%list.
  rewrite IH at 1. reflexivity.
Qed.

Lemma fetches_rounds (n : nat) : fetches (rounds reportId n) = n.
Proof.
  induction n as [|n IH]; [reflexivity|].
  rewrite rounds_front. unfold fetches in *. simpl. now rewrite IH.
Qed.

Lemma sleepsBetween_rounds (n : nat) :
  sleepsBetween (rounds reportId n) = true.
Proof.
  induction n as [|n IH]; [reflexivity|].
  rewrite rounds_front.
  destruct n as [|n]; [reflexivity|].
  rewrite rounds_front in *. exact IH.
Qed.

(** One round: the report is not terminal and the budget not spent. *)
Lemma pollLoop_round (fuel a : nat) (rep r : Report) (trace : list Event) :
  (a < 30)%nat -> nonterminal (status rep) -> getReport a = Ok r ->
  pollLoop (S fuel) getReport reportId a rep trace =
  pollLoop fuel getReport reportId (S a) r
    (trace ++ [Sleep 2000; Fetch reportId]).
Proof.
  intros Ha Hrep Hr. cbn [pollLoop].
  apply Nat.ltb_lt in Ha. rewrite Ha, Hr.
  rewrite <- app_assoc. cbn [app].
  destruct Hrep as [-> | ->]; reflexivity.
Qed.

(** [n] rounds in a row while the store stays non-terminal. *)
Lemma pollLoop_wait (n : nat) :
  forall (fuel a : nat) (rep : Report) (trace : list Event),
    (a + n <= 30)%nat -> nonterminal (status rep) ->
    (forall k, (a <= k < a + n)%nat ->
               exists r, getReport k = Ok r /\ nonterminal (status r)) ->
    exists rep',
      nonterminal (status rep')
      /\ pollLoop (n + fuel) getReport reportId a rep trace =
         pollLoop fuel getReport reportId (a + n) rep'
           (trace ++ rounds reportId n).
Proof.
  induction n as [|n IH]; intros fuel a rep trace Ha Hrep Hget.
  - exists rep. split; [assumption|].
    rewrite Nat.add_0_r, app_nil_r. reflexivity.
  - destruct (Hget a) as [r [Hr Hnt]]; [lia|].
    destruct (IH fuel (S a) r (trace ++ [Sleep 2000; Fetch reportId])%list)
      as [rep' [Hrep' Heq]]; [lia|assumption| |].
    { intros k Hk. apply Hget. lia. }
    exists rep'. split; [assumption|].
    cbn [Nat.add]. rewrite (pollLoop_round _ a rep r) by (assumption || lia).
    rewrite Heq, rounds_front, <- app_assoc, Nat.add_succ_r.
    reflexivity.
Qed.

(** The loop is over once the budget is spent. *)
Lemma pollLoop_spent (fuel : nat) (rep : Report) (trace : list Event) :
  pollLoop (S fuel) getReport reportId 30 rep trace = Some (Exits rep, trace).
Proof. reflexivity. Qed.

Lemma pollLoop_completed (fuel a : nat) (rep : Report) (trace : list Event) :
  status rep = completed ->
  pollLoop (S fuel) getReport reportId a rep trace = Some (Exits rep, trace).
Proof.
  intros H. cbn [pollLoop]. rewrite H. cbn [isCompleted negb].
  rewrite andb_false_r. reflexivity.
Qed.

Lemma pollLoop_failed (fuel a : nat) (rep : Report) (trace : list Event) :
  (a < 30)%nat -> status rep = failed ->
  pollLoop (S fuel) getReport reportId a rep trace =
  Some (Raised "Analysis failed", trace).
Proof.
  intros Ha H. cbn [pollLoop]. apply Nat.ltb_lt in Ha.
  rewrite Ha, H. reflexivity.
Qed.

(** The fetch that ends the wait: rounds [1 .. n] return non-terminal
    reports, round [n + 1] returns [last]. *)
Lemma pollLoop_until (n fuel : nat) (initial last : Report) :
  (n < 30)%nat -> nonterminal (status initial) ->
  (forall k, (k < n)%nat ->
             exists r, getReport k = Ok r /\ nonterminal (status r)) ->
  getReport n = Ok last ->
  pollLoop (n + S fuel) getReport reportId 0 initial [] =
  pollLoop fuel getReport reportId (S n) last (rounds reportId (S n)).
Proof.
  intros Hn Hinit Hget Hlast.
  destruct (pollLoop_wait n (S fuel) 0 initial []) as [rep' [Hrep' Heq]];
    [lia|assumption|intros k Hk; apply Hget; lia|].
  rewrite Heq. cbn [Nat.add app].
  rewrite (pollLoop_round _ n rep' last) by assumption.
  reflexivity.
Qed.

(** The loop always ends: [fuel] above [30 - attempts] is enough, whatever
    the store answers. *)
Lemma pollLoop_total (fuel : nat) :
  forall (a : nat) (rep : Report) (trace : list Event),
    (30 - a < fuel)%nat ->
    exists res, pollLoop fuel getReport reportId a rep trace = Some res.
Proof.
  induction fuel as [|fuel IH]; intros a rep trace Hf; [lia|].
  cbn [pollLoop].
  destruct (a <? 30)%nat eqn:Ha; cbn [andb]; [|eexists; reflexivity].
  destruct (negb (isCompleted (status rep))); [|eexists; reflexivity].
  destruct (isFailed (status rep)); [eexists; reflexivity|].
  destruct (getReport a) as [r|message]; [|eexists; reflexivity].
  apply IH. apply Nat.ltb_lt in Ha. lia.
Qed.

End Polling.

Import FarmDetailPage.

Lemma runPolling_timeout (fallback : string) (initial : Report)
    (getReport : nat -> Response) :
  nonterminal (status initial) ->
  (forall k, exists r, getReport k = Ok r /\ nonterminal (status r)) ->
  runPolling enoughFuel fallback (Ok initial) getReport =
  Some (AnalysisError "Analysis timeout - please try again",
        rounds (id initial) 30).
Proof.
  intros Hinit Hget. unfold runPolling, enoughFuel.
  destruct (pollLoop_wait getReport (id initial) 30 1 0 initial [])
    as [rep' [Hrep' Heq]]; [lia|assumption|intros k _; apply Hget|].
  change 31%nat with (30 + 1)%nat. rewrite Heq.
  cbn [Nat.add app]. rewrite pollLoop_spent.
  destruct Hrep' as [E|E]; rewrite E; reflexivity.
Qed.

Lemma runPolling_completed (fallback : string) (initial last : Report)
    (getReport : nat -> Response) (n : nat) :
  (n < 30)%nat -> nonterminal (status initial) ->
  (forall k, (k < n)%nat ->
             exists r, getReport k = Ok r /\ nonterminal (status r)) ->
  getReport n = Ok last -> status last = completed ->
  runPolling enoughFuel fallback (Ok initial) getReport =
  Some (ReportShown last, rounds (id initial) (S n)).
Proof.
  intros Hn Hinit Hget Hlast Hdone. unfold runPolling, enoughFuel.
  replace 31%nat with (n + S (S (29 - n)))%nat by lia.
  rewrite (pollLoop_until getReport (id initial) n _ initial last)
    by assumption.
  rewrite pollLoop_completed by assumption.
  rewrite Hdone. reflexivity.
Qed.

Lemma runPolling_failed (fallback : string) (initial last : Report)
    (getReport : nat -> Response) (n : nat) :
  (n < 30)%nat -> nonterminal (status initial) ->
  (forall k, (k < n)%nat ->
             exists r, getReport k = Ok r /\ nonterminal (status r)) ->
  getReport n = Ok last -> status last = failed ->
  runPolling enoughFuel fallback (Ok initial) getReport =
  Some (AnalysisError
          (if (S n <? 30)%nat then "Analysis failed"
           else "Analysis timeout - please try again"),
        rounds (id initial) (S n)).
Proof.
  intros Hn Hinit Hget Hlast Hfail. unfold runPolling, enoughFuel.
  replace 31%nat with (n + S (S (29 - n)))%nat by lia.
  rewrite (pollLoop_until getReport (id initial) n _ initial last)
    by assumption.
  destruct (S n <? 30)%nat eqn:E.
  - apply Nat.ltb_lt in E. rewrite pollLoop_failed by assumption.
    reflexivity.
  - apply Nat.ltb_ge in E. assert (S n = 30)%nat as -> by lia.
    rewrite pollLoop_spent. rewrite Hfail. reflexivity.
Qed.

(** The handlers return for every answer of the API. *)
Lemma runPolling_total (fallback : string) (initial : Response)
    (getReport : nat -> Response) :
  exists res, runPolling enoughFuel fallback initial getReport = Some res.
Proof.
  unfold runPolling. destruct initial as [r|message]; [|eexists; reflexivity].
  destruct (pollLoop_total getReport (id r) enoughFuel 0 r [])
    as [[[last|message] trace] H]; [unfold enoughFuel; lia| |];
    rewrite H; [|eexists; reflexivity].
  destruct (negb (isCompleted (status last))); eexists; reflexivity.
Qed.

(** C3. If the analysis never reaches a terminal state (the requested
    report and every fetched report are pending or processing), each
    handler stops after exactly 30 fetches, each preceded by a sleep of
    2000 ms, and reports the timeout failure. *)
Theorem polling_times_out_after_max_attempts
    (farm : string) (initial : Report) (getReport : nat -> Response) :
  nonterminal (status initial) ->
  (forall k, exists r, getReport k = Ok r /\ nonterminal (status r)) ->
  handleSoilHealthOnly (Some farm) (Ok initial) getReport =
    Some (AnalysisError "Analysis timeout - please try again",
          rounds (id initial) 30)
  /\ handleROIOnly (Some farm) (Ok initial) getReport =
    Some (AnalysisError "Analysis timeout - please try again",
          rounds (id initial) 30)
  /\ fetches (rounds (id initial) 30) = 30%nat
  /\ sleepsBetween (rounds (id initial) 30) = true.
Proof.
  intros Hinit Hget. unfold handleSoilHealthOnly, handleROIOnly.
  rewrite !runPolling_timeout by assumption.
  repeat split.
Qed.

Lemma polling_times_out_after_max_attempts_witness :
  handleSoilHealthOnly (Some "farm-1")
    (Ok (mkReport "a1" pending None None))
    (fun _ => Ok (mkReport "a1" processing None None)) =
  Some (AnalysisError "Analysis timeout - please try again", rounds "a1" 30).
Proof.
  apply (polling_times_out_after_max_attempts "farm-1"
           (mkReport "a1" pending None None)
           (fun _ => Ok (mkReport "a1" processing None None))).
  - left. reflexivity.
  - intros k. eexists. split; [reflexivity|]. right. reflexivity.
Defined.

(** C6. If the store answers pending on the first N fetches (N < 30) and
    completed on the next one, the handler shows that completed report
    after exactly N + 1 fetches, one sleep of 2000 ms before each of them
    (hence one between every two consecutive fetches). *)
Theorem polling_returns_completed_report
    (farm : string) (initial last : Report) (getReport : nat -> Response)
    (N : nat) :
  (N < 30)%nat -> status initial = pending ->
  (forall k, (k < N)%nat ->
             exists r, getReport k = Ok r /\ status r = pending) ->
  getReport N = Ok last -> status last = completed ->
  handleSoilHealthOnly (Some farm) (Ok initial) getReport =
    Some (ReportShown last, rounds (id initial) (S N))
  /\ fetches (rounds (id initial) (S N)) = S N
  /\ sleepsBetween (rounds (id initial) (S N)) = true.
Proof.
  intros HN Hinit Hget Hlast Hdone. unfold handleSoilHealthOnly.
  rewrite (runPolling_completed _ initial last getReport N); try assumption.
  - split; [reflexivity|]. split.
    + apply fetches_rounds.
    + apply sleepsBetween_rounds.
  - left. assumption.
  - intros k Hk. destruct (Hget k Hk) as [r [Hr Hs]].
    exists r. split; [assumption|]. left. assumption.
Qed.

Lemma polling_returns_completed_report_witness :
  handleSoilHealthOnly (Some "farm-1")
    (Ok (mkReport "a1" pending None None))
    (fun k => if (k <? 2)%nat then Ok (mkReport "a1" pending None None)
              else Ok (mkReport "a1" completed (Some "{health: 81}") None)) =
  Some (ReportShown (mkReport "a1" completed (Some "{health: 81}") None),
        rounds "a1" 3).
Proof.
  apply (polling_returns_completed_report "farm-1"
           (mkReport "a1" pending None None)
           (mkReport "a1" completed (Some "{health: 81}") None)
           (fun k => if (k <? 2)%nat then Ok (mkReport "a1" pending None None)
              else Ok (mkReport "a1" completed (Some "{health: 81}") None)) 2).
  - lia.
  - reflexivity.
  - intros k Hk. exists (mkReport "a1" pending None None).
    split; [|reflexivity].
    apply Nat.ltb_lt in Hk. cbv beta. rewrite Hk. reflexivity.
  - reflexivity.
  - reflexivity.
Defined.

(** C4 (as stated). The first fetch returns a failed report that stores the
    message "Earth Engine quota exceeded"; the handler reports the fixed
    text "Analysis failed" instead. *)
Lemma polling_failure_message_counterexample :
  let failedReport :=
    mkReport "a1" failed None (Some "Earth Engine quota exceeded") in
  handleSoilHealthOnly (Some "farm-1")
    (Ok (mkReport "a1" pending None None)) (fun _ => Ok failedReport) =
  Some (AnalysisError "Analysis failed", rounds "a1" 1)
  /\ error_message failedReport <> Some "Analysis failed".
Proof.
  split; [reflexivity|discriminate].
Qed.

(** C4 (amended). If fetch k (1 <= k <= 30) is the first to return a failed
    report, the earlier reports being pending or processing, each handler
    stops at fetch k, performing k fetches and no more, and reports a
    failure; for k < 30 the reported message is the fixed text
    "Analysis failed", whatever message the report stores. *)
Theorem polling_stops_at_failed_fetch
    (farm : string) (initial last : Report) (getReport : nat -> Response)
    (k : nat) :
  (1 <= k <= 30)%nat -> nonterminal (status initial) ->
  (forall j, (j < k - 1)%nat ->
             exists r, getReport j = Ok r /\ nonterminal (status r)) ->
  getReport (k - 1)%nat = Ok last -> status last = failed ->
  exists message,
    handleSoilHealthOnly (Some farm) (Ok initial) getReport =
      Some (AnalysisError message, rounds (id initial) k)
    /\ handleROIOnly (Some farm) (Ok initial) getReport =
      Some (AnalysisError message, rounds (id initial) k)
    /\ fetches (rounds (id initial) k) = k
    /\ ((k < 30)%nat -> message = "Analysis failed").
Proof.
  intros Hk Hinit Hget Hlast Hfail.
  unfold handleSoilHealthOnly, handleROIOnly.
  assert (Hn : (k - 1 < 30)%nat) by lia.
  rewrite !(runPolling_failed _ initial last getReport (k - 1))
    by assumption.
  replace (S (k - 1)) with k by lia.
  eexists. split; [reflexivity|]. split; [reflexivity|].
  split; [apply fetches_rounds|].
  intros Hlt. apply Nat.ltb_lt in Hlt. rewrite Hlt. reflexivity.
Qed.

Lemma polling_stops_at_failed_fetch_witness :
  exists message,
    handleSoilHealthOnly (Some "farm-1")
      (Ok (mkReport "a1" pending None None))
      (fun j => if (j <? 2)%nat then Ok (mkReport "a1" processing None None)
                else Ok (mkReport "a1" failed None (Some "no imagery"))) =
      Some (AnalysisError message, rounds "a1" 3)
    /\ handleROIOnly (Some "farm-1")
      (Ok (mkReport "a1" pending None None))
      (fun j => if (j <? 2)%nat then Ok (mkReport "a1" processing None None)
                else Ok (mkReport "a1" failed None (Some "no imagery"))) =
      Some (AnalysisError message, rounds "a1" 3)
    /\ fetches (rounds "a1" 3) = 3%nat
    /\ ((3 < 30)%nat -> message = "Analysis failed").
Proof.
  apply (polling_stops_at_failed_fetch "farm-1"
           (mkReport "a1" pending None None)
           (mkReport "a1" failed None (Some "no imagery"))
           (fun j => if (j <? 2)%nat
                     then Ok (mkReport "a1" processing None None)
                     else Ok (mkReport "a1" failed None (Some "no imagery")))
           3).
  - lia.
  - left. reflexivity.
  - intros j Hj. exists (mkReport "a1" processing None None).
    split; [|right; reflexivity].
    assert (Hlt : (j <? 2)%nat = true) by (apply Nat.ltb_lt; simpl in Hj; lia).
    cbv beta. rewrite Hlt. reflexivity.
  - reflexivity.
  - reflexivity.
Defined.

(** C5 (the code at the failing input). The reports are pending up to
    fetch 29 and fetch 30 returns a failed report: both handlers report the
    timeout, although the last fetched record has status failed. *)
Theorem polling_failed_on_last_fetch_reports_timeout :
  let store := fun j : nat =>
    if (j <? 29)%nat then Ok (mkReport "a1" pending None None)
    else Ok (mkReport "a1" failed None (Some "no imagery")) in
  store 29%nat = Ok (mkReport "a1" failed None (Some "no imagery"))
  /\ handleSoilHealthOnly (Some "farm-1")
       (Ok (mkReport "a1" pending None None)) store =
     Some (AnalysisError "Analysis timeout - please try again",
           rounds "a1" 30)
  /\ handleROIOnly (Some "farm-1")
       (Ok (mkReport "a1" pending None None)) store =
     Some (AnalysisError "Analysis timeout - please try again",
           rounds "a1" 30).
Proof.
  cbv zeta. split; [reflexivity|]. split; vm_compute; reflexivity.
Qed.

(** ** Farm records *)

Section FarmRecords.

Import Schema.

Lemma farms_check_invariant (r : FarmRow) :
  farms_check r = true -> farm_invariant r.
Proof.
  unfold farms_check, check_area, valid_coordinates, valid_dates,
    farm_invariant.
  intros H.
  apply andb_prop in H as [H Hd]. apply andb_prop in H as [Ha Hc].
  apply andb_prop in Hc as [Hc H4]. apply andb_prop in Hc as [Hc H3].
  apply andb_prop in Hc as [H1 H2].
  apply negb_true_iff in Ha.
  repeat split; auto using Qle_bool_true_le, Qle_bool_false_lt.
  intros p h Hp Hh. rewrite Hp, Hh in Hd. apply Z.ltb_lt. exact Hd.
Qed.

Lemma insertFarm_inv (db db' : Farms) (r : FarmRow) :
  insertFarm db r = Some db' -> db' = (r :: db)%list /\ farm_invariant r.
Proof.
  unfold insertFarm. destruct (farms_check r) eqn:E; [|discriminate].
  intros H. injection H as <-. split; [reflexivity|].
  apply farms_check_invariant. exact E.
Qed.

Lemma Forall_firstn_skipn {A : Type} (P : A -> Prop) (l : list A) (i j : nat) :
  Forall P l -> Forall P (firstn i l) /\ Forall P (skipn j l).
Proof.
  intros H. split.
  - rewrite <- (firstn_skipn i l) in H. apply Forall_app in H. apply H.
  - rewrite <- (firstn_skipn j l) in H. apply Forall_app in H. apply H.
Qed.

Lemma stored_invariant (db : Farms) :
  stored db -> Forall farm_invariant db.
Proof.
  induction 1 as [|db r db' _ IH Hins|db i r db' _ IH Hupd|db i _ IH].
  - constructor.
  - apply insertFarm_inv in Hins as [-> Hr]. constructor; assumption.
  - unfold updateFarm in Hupd.
    destruct (i <? List.length db)%nat; [|injection Hupd as <-; exact IH].
    destruct (farms_check r) eqn:E; [|discriminate].
    injection Hupd as <-.
    destruct (Forall_firstn_skipn farm_invariant db i (S i) IH).
    apply Forall_app. split; [assumption|].
    constructor; [apply farms_check_invariant; exact E|assumption].
  - destruct (Forall_firstn_skipn farm_invariant db i (S i) IH).
    apply Forall_app. split; assumption.
Qed.

Lemma createFarm_inv (env : NewFarmPage.Env)
    (farmData : NewFarmPage.FarmData) (db db' : Farms) :
  NewFarmPage.createFarm env farmData db = Some db' ->
  exists lat lng area p h,
    NewFarmPage.fd_location_lat farmData = Some (Num lat)
    /\ NewFarmPage.fd_location_lng farmData = Some (Num lng)
    /\ NewFarmPage.fd_area_hectares farmData = Num area
    /\ NewFarmPage.toDate env (NewFarmPage.fd_planting_date farmData) = Some p
    /\ NewFarmPage.toDate env (NewFarmPage.fd_harvest_date farmData) = Some h
    /\ insertFarm db
         (mkFarmRow (NewFarmPage.fd_user_id farmData)
            (NewFarmPage.fd_name farmData) lat lng area
            (NewFarmPage.fd_crop_type farmData) (Some p) (Some h))
       = Some db'.
Proof.
  unfold NewFarmPage.createFarm.
  destruct (NewFarmPage.fd_location_lat farmData) as [[| | |lat]|];
    try discriminate;
    destruct (NewFarmPage.fd_location_lng farmData) as [[| | |lng]|];
    try discriminate;
    destruct (NewFarmPage.fd_area_hectares farmData) as [| | |area];
    try discriminate; cbn [NewFarmPage.finite].
  destruct (NewFarmPage.toDate env (NewFarmPage.fd_planting_date farmData))
    as [p|]; [|discriminate].
  destruct (NewFarmPage.toDate env (NewFarmPage.fd_harvest_date farmData))
    as [h|]; [|discriminate].
  intros H. exists lat, lng, area, p, h. repeat split; assumption.
Qed.

End FarmRecords.



(** ** Grid tiers *)

(** C8. For every area a > 0 the tier is the step function of the table:
    a < 2 gives 2x2 at 10 m, 2 <= a < 10 gives 3x3 at 10 m, 10 <= a < 50
    gives 4x4 at 30 m and a >= 50 gives 5x5 at 30 m; the boundary values 2,
    10 and 50 take the upper tier. *)
Theorem tier_step_function (a : Q) :
  0 < a ->
  (a < 2 -> SpatialGrid.tier a = SpatialGrid.mkTier 2 2 10)
  /\ (2 <= a -> a < 10 -> SpatialGrid.tier a = SpatialGrid.mkTier 3 3 10)
  /\ (10 <= a -> a < 50 -> SpatialGrid.tier a = SpatialGrid.mkTier 4 4 30)
  /\ (50 <= a -> SpatialGrid.tier a = SpatialGrid.mkTier 5 5 30)
  /\ SpatialGrid.tier 2 = SpatialGrid.mkTier 3 3 10
  /\ SpatialGrid.tier 10 = SpatialGrid.mkTier 4 4 30
  /\ SpatialGrid.tier 50 = SpatialGrid.mkTier 5 5 30.
Proof.
  intros _. unfold SpatialGrid.tier.
  repeat split; try reflexivity; intros.
  - rewrite !Qle_bool_of_lt; [reflexivity| qlra ..].
  - rewrite (Qle_bool_of_lt 50 a), (Qle_bool_of_lt 10 a) by qlra.
    rewrite Qle_bool_of_le by assumption. reflexivity.
  - rewrite (Qle_bool_of_lt 50 a) by qlra.
    rewrite Qle_bool_of_le by assumption. reflexivity.
  - rewrite Qle_bool_of_le by assumption. reflexivity.
Qed.

Lemma tier_step_function_witness :
  SpatialGrid.tier (15 # 2) = SpatialGrid.mkTier 3 3 10.
Proof.
  apply (tier_step_function (15 # 2)); (reflexivity || qlra).
Defined.

(** ** Worked examples *)

Example tier_7_5_ha :
  SpatialGrid.tier (15 # 2) = SpatialGrid.mkTier 3 3 10
  /\ SpatialGrid.zones (SpatialGrid.tier (15 # 2)) = 9%nat.
Proof. split; reflexivity. Qed.

Example tier_120_ha :
  SpatialGrid.tier 120 = SpatialGrid.mkTier 5 5 30
  /\ SpatialGrid.zones (SpatialGrid.tier 120) = 25%nat.
Proof. split; reflexivity. Qed.

Example gauge_at_54_9 :
  HealthGauge.label (HealthGauge.getHealthConfig (Num (549 # 10)))
  = "Needs Attention".
Proof. reflexivity. Qed.

Example gauge_at_NaN :
  HealthGauge.label (HealthGauge.getHealthConfig NaN) = "Critical".
Proof. reflexivity. Qed.

Example sample_form_creates_farm :
  NewFarmPage.handleSubmit NewFarmPage.sampleEnv "user-1"
    NewFarmPage.sampleForm [] =
  (NewFarmPage.Redirected,
   [Schema.mkFarmRow "user-1" "Green Acres" (3 # 1) (36 # 1) (15 # 2)
      "Maize" (Some 19783%Z) (Some 19967%Z)]).
Proof. reflexivity. Qed.

(** A latitude of 95 passes [validateForm]; the table's coordinate check
    rejects the row. *)
Example latitude_95_rejected_by_table :
  let form := NewFarmPage.mkFormData "Green Acres" (Some (Num (95 # 1)))
                (Some (Num (36 # 1))) "7.5" "Maize"
                "2024-03-01" "2024-09-01" in
  NewFarmPage.validateForm NewFarmPage.sampleEnv form = true
  /\ NewFarmPage.handleSubmit NewFarmPage.sampleEnv "user-1" form [] =
     (NewFarmPage.Errors (NewFarmPage.generalError "insert failed"), []).
Proof. split; reflexivity. Qed.

Example zero_area_rejected_by_form :
  NewFarmPage.areaError
    (NewFarmPage.mkEnv (fun s => s) (fun _ => Num 0) (fun _ => None)
       0%Z 0%Z 0%Z (fun _ => None) "")
    NewFarmPage.sampleForm
  = Some "Please enter a valid area greater than 0".
Proof. reflexivity. Qed.

(** * Further properties of the code *)

(** ** Polling: edge cases and the budget *)

Section PollingBudget.

Variable getReport : nat -> Response.
Variable reportId : string.

Lemma rounds_snoc (n : nat) (trace : list Event) :
  trace = rounds reportId n ->
  ((trace ++ [Sleep 2000]) ++ [Fetch reportId])%list = rounds reportId (S n).
Proof. intros ->. rewrite <- app_assoc. reflexivity. Qed.

Lemma sleepTime_rounds (n : nat) :
  sleepTime (rounds reportId n) = (2000 * n)%nat.
Proof.
  induction n as [|n IH]; [reflexivity|].
  rewrite rounds_front. cbn [sleepTime]. rewrite IH. lia.
Qed.

(** Whatever the store answers, the loop has made [n <= 30] rounds when it
    ends, and a report it exits with is completed unless the budget is
    spent. *)
Lemma pollLoop_budget (fuel : nat) :
  forall (a : nat) (rep : Report) (res : LoopEnd) (trace : list Event),
    (a <= 30)%nat ->
    pollLoop fuel getReport reportId a rep (rounds reportId a)
    = Some (res, trace) ->
    exists n, (a <= n <= 30)%nat /\ trace = rounds reportId n
      /\ forall last, res = Exits last ->
           status last = completed \/ n = 30%nat.
Proof.
  induction fuel as [|fuel IH]; intros a rep res trace Ha H; [discriminate|].
  cbn [pollLoop] in H.
  destruct (a <? 30)%nat eqn:Hlt; cbn [andb] in H.
  - apply Nat.ltb_lt in Hlt.
    destruct (status rep) eqn:Hs; cbn [isCompleted isFailed negb] in H.
    + destruct (getReport a) as [r|message].
      * rewrite (rounds_snoc a) in H by reflexivity.
        destruct (IH (S a) r res trace) as [n [Hn Hrest]]; [lia|exact H|].
        exists n. split; [lia|exact Hrest].
      * rewrite (rounds_snoc a) in H by reflexivity.
        injection H as <- <-. exists (S a). split; [lia|].
        split; [reflexivity|]. intros last Hl. discriminate Hl.
    + destruct (getReport a) as [r|message].
      * rewrite (rounds_snoc a) in H by reflexivity.
        destruct (IH (S a) r res trace) as [n [Hn Hrest]]; [lia|exact H|].
        exists n. split; [lia|exact Hrest].
      * rewrite (rounds_snoc a) in H by reflexivity.
        injection H as <- <-. exists (S a). split; [lia|].
        split; [reflexivity|]. intros last Hl. discriminate Hl.
    + injection H as <- <-. exists a. split; [lia|].
      split; [reflexivity|]. intros last Hl. injection Hl as <-.
      left. exact Hs.
    + injection H as <- <-. exists a. split; [lia|].
      split; [reflexivity|]. intros last Hl. discriminate Hl.
  - apply Nat.ltb_ge in Hlt. injection H as <- <-.
    exists a. split; [lia|]. split; [reflexivity|].
    intros last _. right. lia.
Qed.

End PollingBudget.

(** X1. Whatever the store answers to a requested analysis, each handler
    returns after n <= 30 rounds of (sleep 2000 ms, fetch): at most 30
    fetches and 60000 ms of sleep; and a report it shows has status
    completed. *)
Theorem polling_budget_and_soundness
    (farm : string) (initial : Report) (getReport : nat -> Response) :
  exists outcome n,
    (n <= 30)%nat
    /\ handleSoilHealthOnly (Some farm) (Ok initial) getReport
       = Some (outcome, rounds (id initial) n)
    /\ fetches (rounds (id initial) n) = n
    /\ (Z.of_nat (sleepTime (rounds (id initial) n)) <= 60000)%Z
    /\ outcome <> Idle
    /\ forall r, outcome = ReportShown r -> status r = completed.
Proof.
  unfold handleSoilHealthOnly, runPolling.
  destruct (pollLoop_total getReport (id initial) enoughFuel 0 initial [])
    as [[res trace] H]; [unfold enoughFuel; lia|].
  rewrite H.
  destruct (pollLoop_budget getReport (id initial) enoughFuel 0 initial
              res trace) as [n [Hn [-> Hres]]]; [lia|exact H|].
  assert (Hsleep : (Z.of_nat (sleepTime (rounds (id initial) n)) <= 60000)%Z)
    by (rewrite sleepTime_rounds; lia).
  destruct res as [last|message].
  - destruct (status last) eqn:Hs; cbn [isCompleted negb];
      eexists; exists n;
      (split; [lia|]); (split; [reflexivity|]);
      (split; [apply fetches_rounds|]); (split; [exact Hsleep|]);
      (split; [discriminate|]); intros r Hr;
      try discriminate Hr.
    injection Hr as <-. exact Hs.
  - eexists; exists n.
    split; [lia|]. split; [reflexivity|]. split; [apply fetches_rounds|].
    split; [exact Hsleep|]. split; [discriminate|].
    intros r Hr. discriminate Hr.
Qed.

(** X2. When the requested analysis is already terminal, no fetch and no
    sleep happen: a completed report is shown at once and a failed one is
    reported as "Analysis failed"; a handler without a farm does nothing. *)
Theorem polling_terminal_initial_report
    (farm report_id : string) (payload message : option string)
    (getReport : nat -> Response) :
  let done := mkReport report_id completed payload message in
  let dead := mkReport report_id failed payload message in
  handleSoilHealthOnly (Some farm) (Ok done) getReport
    = Some (ReportShown done, [])
  /\ handleROIOnly (Some farm) (Ok done) getReport
    = Some (ReportShown done, [])
  /\ handleSoilHealthOnly (Some farm) (Ok dead) getReport
    = Some (AnalysisError "Analysis failed", [])
  /\ handleROIOnly (Some farm) (Ok dead) getReport
    = Some (AnalysisError "Analysis failed", [])
  /\ handleSoilHealthOnly None (Ok done) getReport = Some (Idle, [])
  /\ handleROIOnly None (Ok done) getReport = Some (Idle, []).
Proof.
  cbv zeta.
  unfold handleSoilHealthOnly, handleROIOnly, runPolling, enoughFuel.
  change 31%nat with (S 30).
  rewrite !pollLoop_completed by reflexivity.
  rewrite !pollLoop_failed by (reflexivity || lia).
  repeat split.
Qed.

(** X3. If fetch k + 1 (k < 30) throws, the earlier reports being pending
    or processing, the handler stops there without another fetch and
    reports the thrown message, or its own fallback text when that message
    is empty. *)
Theorem polling_lookup_error_propagates
    (farm : string) (initial : Report) (getReport : nat -> Response)
    (k : nat) (message : string) :
  (k < 30)%nat -> nonterminal (status initial) ->
  (forall j, (j < k)%nat ->
             exists r, getReport j = Ok r /\ nonterminal (status r)) ->
  getReport k = Throws message ->
  handleSoilHealthOnly (Some farm) (Ok initial) getReport
  = Some (AnalysisError
            (if String.eqb message ""
             then "Soil health analysis failed. Please try again."
             else message),
          rounds (id initial) (S k))
  /\ handleROIOnly (Some farm) (Ok initial) getReport
  = Some (AnalysisError
            (if String.eqb message ""
             then "ROI analysis failed. Please try again."
             else message),
          rounds (id initial) (S k)).
Proof.
  intros Hk Hinit Hget Hthrow.
  unfold handleSoilHealthOnly, handleROIOnly, runPolling, enoughFuel.
  destruct (pollLoop_wait getReport (id initial) k (S (30 - k)) 0 initial [])
    as [rep' [Hrep' Heq]]; [lia|assumption|intros j Hj; apply Hget; lia|].
  replace 31%nat with (k + S (30 - k))%nat by lia.
  rewrite Heq. cbn [Nat.add app pollLoop].
  apply Nat.ltb_lt in Hk. rewrite Hk, Hthrow.
  assert (Hnt : negb (isCompleted (status rep')) = true
                /\ isFailed (status rep') = false)
    by (destruct Hrep' as [E|E]; rewrite E; split; reflexivity).
  destruct Hnt as [-> ->]. cbn [andb].
  rewrite <- app_assoc. cbn [app].
  change (rounds (id initial) k ++ [Sleep 2000; Fetch (id initial)])%list
    with (rounds (id initial) (S k)).
  split; reflexivity.
Qed.

Lemma polling_lookup_error_propagates_witness :
  handleSoilHealthOnly (Some "farm-1")
    (Ok (mkReport "a1" pending None None))
    (fun j => if (j <? 1)%nat then Ok (mkReport "a1" pending None None)
              else Throws "Report not found")
  = Some (AnalysisError "Report not found", rounds "a1" 2).
Proof.
  apply (polling_lookup_error_propagates "farm-1"
           (mkReport "a1" pending None None)
           (fun j => if (j <? 1)%nat then Ok (mkReport "a1" pending None None)
                     else Throws "Report not found") 1 "Report not found").
  - lia.
  - left. reflexivity.
  - intros j Hj. exists (mkReport "a1" pending None None).
    split; [|left; reflexivity].
    assert (Hlt : (j <? 1)%nat = true) by (apply Nat.ltb_lt; exact Hj).
    cbv beta. rewrite Hlt. reflexivity.
  - reflexivity.
Defined.

(** ** Sorted and truncated lists *)

Section StableSort.

Context {A : Type} (compare : A -> A -> Q) (le : A -> A -> Prop).

Hypothesis le_of_true : forall a b, Qle_bool (compare a b) 0 = true -> le a b.
Hypothesis le_of_false :
  forall a b, Qle_bool (compare a b) 0 = false -> le b a.
Hypothesis le_trans : forall a b c, le a b -> le b c -> le a c.

Lemma insertBy_perm (x : A) (l : list A) :
  Permutation (JsArray.insertBy compare x l) (x :: l).
Proof.
  induction l as [|y l IH]; cbn [JsArray.insertBy]; [reflexivity|].
  destruct (Qle_bool (compare x y) 0); [reflexivity|].
  rewrite IH. apply perm_swap.
Qed.

Lemma sortBy_perm (l : list A) : Permutation (JsArray.sortBy compare l) l.
Proof.
  induction l as [|x l IH]; [reflexivity|].
  unfold JsArray.sortBy in *. cbn [fold_right].
  rewrite insertBy_perm. now apply perm_skip.
Qed.

Lemma insertBy_sorted (x : A) (l : list A) :
  StronglySorted le l -> StronglySorted le (JsArray.insertBy compare x l).
Proof.
  induction 1 as [|y l Hs IH Hy]; cbn [JsArray.insertBy].
  - constructor; constructor.
  - destruct (Qle_bool (compare x y) 0) eqn:E.
    + apply le_of_true in E. constructor.
      * constructor; assumption.
      * constructor; [assumption|].
        rewrite Forall_forall in *. intros z Hz.
        apply (le_trans x y z); auto.
    + apply le_of_false in E. constructor; [assumption|].
      apply (Permutation_Forall (Permutation_sym (insertBy_perm x l))).
      constructor; assumption.
Qed.

Lemma sortBy_sorted (l : list A) : StronglySorted le (JsArray.sortBy compare l).
Proof.
  induction l as [|x l IH]; [constructor|].
  unfold JsArray.sortBy in *. cbn [fold_right].
  apply insertBy_sorted. exact IH.
Qed.

Lemma sorted_firstn (n : nat) (l : list A) :
  StronglySorted le l -> StronglySorted le (firstn n l).
Proof.
  intros H. revert n. induction H as [|y l Hs IH Hy]; intros [|n];
    cbn [firstn]; try constructor.
  - apply IH.
  - rewrite Forall_forall in *. intros z Hz. apply Hy.
    rewrite <- (firstn_skipn n l). apply in_or_app. left. exact Hz.
Qed.

Lemma sorted_split (n : nat) (l : list A) :
  StronglySorted le l ->
  forall y z, In y (firstn n l) -> In z (skipn n l) -> le y z.
Proof.
  intros H. revert n. induction H as [|x l Hs IH Hx]; intros n y z Hy Hz.
  - rewrite firstn_nil in Hy. contradiction.
  - destruct n as [|n]; cbn [firstn skipn] in Hy, Hz; [contradiction|].
    destruct Hy as [<-|Hy].
    + rewrite Forall_forall in Hx. apply Hx.
      rewrite <- (firstn_skipn n l). apply in_or_app. right. exact Hz.
    + apply (IH n); assumption.
Qed.

End StableSort.

Lemma slice0_firstn {A : Type} (l : list A) (n : Z) :
  (0 <= n)%Z -> JsArray.slice0 l n = firstn (Z.to_nat n) l.
Proof.
  intros Hn. unfold JsArray.slice0.
  destruct (n <? 0)%Z eqn:E; [apply Z.ltb_lt in E; lia|reflexivity].
Qed.

Lemma In_firstn {A : Type} (n : nat) (l : list A) (x : A) :
  In x (firstn n l) -> In x l.
Proof.
  intros H. rewrite <- (firstn_skipn n l). apply in_or_app. left. exact H.
Qed.

Lemma isProblemZone_lt (z : Zone) :
  ZoneAlertList.isProblemZone z = true <-> health z < 55.
Proof.
  unfold ZoneAlertList.isProblemZone. rewrite negb_true_iff. split.
  - apply Qle_bool_false_lt.
  - apply Qle_bool_of_lt.
Qed.

Lemma byHealth_sorted (zones : list Zone) :
  StronglySorted (fun a b => health a <= health b)
    (JsArray.sortBy ZoneAlertList.byHealth zones).
Proof.
  apply sortBy_sorted; unfold ZoneAlertList.byHealth.
  - intros a b H. apply Qle_bool_true_le in H. qlra.
  - intros a b H. apply Qle_bool_false_lt in H. qlra.
  - intros a b c H1 H2. qlra.
Qed.

(** X4. The zone alert list shows only zones with health below 55, the
    worst first, at most [maxAlerts] of them, and the ones it leaves out
    are no worse than any it shows. *)
Theorem problem_zones_worst_first (zones : list Zone) (maxAlerts : Z) :
  (0 <= maxAlerts)%Z ->
  let shown := ZoneAlertList.problemZones zones maxAlerts in
  Forall (fun z => In z zones /\ health z < 55) shown
  /\ StronglySorted (fun a b => health a <= health b) shown
  /\ List.length shown
     = Nat.min (Z.to_nat maxAlerts)
         (List.length (List.filter ZoneAlertList.isProblemZone zones))
  /\ exists rest,
       Permutation (List.filter ZoneAlertList.isProblemZone zones)
         (shown ++ rest)
       /\ forall y z, In y shown -> In z rest -> health y <= health z.
Proof.
  intros Hmax. cbv zeta. unfold ZoneAlertList.problemZones.
  rewrite slice0_firstn by assumption.
  set (problems := List.filter ZoneAlertList.isProblemZone zones).
  set (sorted := JsArray.sortBy ZoneAlertList.byHealth problems).
  assert (Hperm : Permutation sorted problems) by apply sortBy_perm.
  assert (Hsorted := byHealth_sorted problems). fold sorted in Hsorted.
  split; [|split; [|split]].
  - apply Forall_forall. intros z Hz. apply In_firstn in Hz.
    apply (Permutation_in _ Hperm) in Hz. apply filter_In in Hz.
    destruct Hz as [Hin Hp]. split; [assumption|].
    apply isProblemZone_lt. exact Hp.
  - apply sorted_firstn. exact Hsorted.
  - rewrite length_firstn. rewrite (Permutation_length Hperm). reflexivity.
  - exists (skipn (Z.to_nat maxAlerts) sorted). split.
    + rewrite firstn_skipn. symmetry. exact Hperm.
    + intros y z Hy Hz.
      apply (sorted_split (fun a b => health a <= health b)
               (Z.to_nat maxAlerts) sorted Hsorted y z Hy Hz).
Qed.

Lemma problem_zones_worst_first_witness :
  StronglySorted (fun a b => health a <= health b)
    (ZoneAlertList.problemZones
       [mkZone "A1" 0 0 80 healthy 0 0 0 [] [] 1;
        mkZone "A2" 0 1 40 degraded 0 0 0 [] [] 1;
        mkZone "B1" 1 0 20 critical 0 0 0 [] [] 1] 3).
Proof.
  apply (problem_zones_worst_first
           [mkZone "A1" 0 0 80 healthy 0 0 0 [] [] 1;
            mkZone "A2" 0 1 40 degraded 0 0 0 [] [] 1;
            mkZone "B1" 1 0 20 critical 0 0 0 [] [] 1] 3).
  lia.
Defined.

(** X5. With a positive [maxAlerts] the all-clear card is shown exactly
    when no zone has health below 55; with [maxAlerts] zero it is shown
    whatever the zones are. *)
Theorem all_clear_iff_no_problem_zone (zones : list Zone) (maxAlerts : Z) :
  (0 < maxAlerts)%Z ->
  (ZoneAlertList.allClear zones maxAlerts = true
   <-> forall z, In z zones -> 55 <= health z)
  /\ ZoneAlertList.allClear zones 0 = true.
Proof.
  intros Hmax. split; [|reflexivity].
  unfold ZoneAlertList.allClear. rewrite Nat.eqb_eq.
  destruct (problem_zones_worst_first zones maxAlerts) as [_ [_ [Hlen _]]];
    [lia|].
  cbv zeta in Hlen. rewrite Hlen.
  set (problems := List.filter ZoneAlertList.isProblemZone zones).
  split.
  - intros H z Hz.
    assert (Hnil : problems = []).
    { destruct problems; [reflexivity|]. cbn [List.length] in H. lia. }
    destruct (Qlt_le_dec (health z) 55) as [Hlt|Hle]; [|exact Hle].
    exfalso. apply isProblemZone_lt in Hlt.
    assert (Hin : In z problems) by (apply filter_In; split; assumption).
    rewrite Hnil in Hin. exact Hin.
  - intros H.
    assert (Hnil : problems = []).
    { destruct problems as [|z l] eqn:E; [reflexivity|]. exfalso.
      assert (Hin : In z problems) by (rewrite E; left; reflexivity).
      apply filter_In in Hin. destruct Hin as [Hin Hp].
      apply isProblemZone_lt in Hp. specialize (H z Hin). qlra. }
    rewrite Hnil. cbn [List.length]. apply Nat.min_0_r.
Qed.

Lemma all_clear_iff_no_problem_zone_witness :
  ZoneAlertList.allClear [mkZone "A1" 0 0 80 healthy 0 0 0 [] [] 1] 3 = true
  <-> forall z, In z [mkZone "A1" 0 0 80 healthy 0 0 0 [] [] 1] ->
                55 <= health z.
Proof.
  apply (all_clear_iff_no_problem_zone
           [mkZone "A1" 0 0 80 healthy 0 0 0 [] [] 1] 3).
  lia.
Defined.

Lemma byRoiDescending_sorted (l : list ROIDisplay.CropRecommendation) :
  StronglySorted
    (fun a b => ROIDisplay.roi_percentage b <= ROIDisplay.roi_percentage a)
    (JsArray.sortBy ROIDisplay.byRoiDescending l).
Proof.
  apply sortBy_sorted; unfold ROIDisplay.byRoiDescending.
  - intros a b H. apply Qle_bool_true_le in H. qlra.
  - intros a b H. apply Qle_bool_false_lt in H. qlra.
  - intros a b c H1 H2. qlra.
Qed.

(** X6. [getTopRecommendations] returns the [count] recommendations with
    the highest ROI, best first (all of them when there are fewer), and
    leaves the caller's array reordered: the same recommendations, sorted
    by descending ROI, the returned ones at its front. *)
Theorem top_recommendations_by_roi
    (recommendations : list ROIDisplay.CropRecommendation) (count : Z) :
  (0 <= count)%Z ->
  let top := fst (ROIDisplay.getTopRecommendations recommendations count) in
  let after := snd (ROIDisplay.getTopRecommendations recommendations count) in
  Permutation after recommendations
  /\ StronglySorted
       (fun a b => ROIDisplay.roi_percentage b <= ROIDisplay.roi_percentage a)
       after
  /\ top = firstn (Z.to_nat count) after
  /\ List.length top
     = Nat.min (Z.to_nat count) (List.length recommendations)
  /\ forall y z, In y top -> In z (skipn (Z.to_nat count) after) ->
                 ROIDisplay.roi_percentage z <= ROIDisplay.roi_percentage y.
Proof.
  intros Hc. cbv zeta. unfold ROIDisplay.getTopRecommendations.
  cbn [fst snd]. rewrite slice0_firstn by assumption.
  set (sorted := JsArray.sortBy ROIDisplay.byRoiDescending recommendations).
  assert (Hperm : Permutation sorted recommendations) by apply sortBy_perm.
  assert (Hsorted := byRoiDescending_sorted recommendations).
  fold sorted in Hsorted.
  split; [exact Hperm|]. split; [exact Hsorted|]. split; [reflexivity|].
  split.
  - rewrite length_firstn, (Permutation_length Hperm). reflexivity.
  - intros y z Hy Hz.
    apply (sorted_split
             (fun a b => ROIDisplay.roi_percentage b
                         <= ROIDisplay.roi_percentage a)
             (Z.to_nat count) sorted Hsorted y z Hy Hz).
Qed.

Lemma top_recommendations_by_roi_witness :
  Permutation
    (snd (ROIDisplay.getTopRecommendations
            [ROIDisplay.mkCropRecommendation "Maize" "grain" 12 "low";
             ROIDisplay.mkCropRecommendation "Beans" "legume" 31 "moderate";
             ROIDisplay.mkCropRecommendation "Rice" "grain" (45 # 2) "high"]
            2))
    [ROIDisplay.mkCropRecommendation "Maize" "grain" 12 "low";
     ROIDisplay.mkCropRecommendation "Beans" "legume" 31 "moderate";
     ROIDisplay.mkCropRecommendation "Rice" "grain" (45 # 2) "high"].
Proof.
  apply (top_recommendations_by_roi
           [ROIDisplay.mkCropRecommendation "Maize" "grain" 12 "low";
            ROIDisplay.mkCropRecommendation "Beans" "legume" 31 "moderate";
            ROIDisplay.mkCropRecommendation "Rice" "grain" (45 # 2) "high"]
           2).
  lia.
Defined.

Example top_two_recommendations :
  fst (ROIDisplay.getTopRecommendations
         [ROIDisplay.mkCropRecommendation "Maize" "grain" 12 "low";
          ROIDisplay.mkCropRecommendation "Beans" "legume" 31 "moderate";
          ROIDisplay.mkCropRecommendation "Rice" "grain" (45 # 2) "high"] 2)
  = [ROIDisplay.mkCropRecommendation "Beans" "legume" 31 "moderate";
     ROIDisplay.mkCropRecommendation "Rice" "grain" (45 # 2) "high"].
Proof. reflexivity. Qed.

(** ** The partner dashboard's filter *)

(** X7. The healthy, at-risk and critical views partition the farms: every
    farm is kept by exactly one of the three filters, so their sizes add up
    to the number of farms; the filter [All] keeps the list as it is; and
    every view is a part of the list. *)
Theorem dashboard_filters_partition (farms : list AdminDashboard.FarmSummary) :
  (forall farm,
     (AdminDashboard.keeps AdminDashboard.Healthy farm = true
      /\ AdminDashboard.keeps AdminDashboard.AtRisk farm = false
      /\ AdminDashboard.keeps AdminDashboard.Critical farm = false)
     \/ (AdminDashboard.keeps AdminDashboard.Healthy farm = false
         /\ AdminDashboard.keeps AdminDashboard.AtRisk farm = true
         /\ AdminDashboard.keeps AdminDashboard.Critical farm = false)
     \/ (AdminDashboard.keeps AdminDashboard.Healthy farm = false
         /\ AdminDashboard.keeps AdminDashboard.AtRisk farm = false
         /\ AdminDashboard.keeps AdminDashboard.Critical farm = true))
  /\ (List.length (AdminDashboard.filteredFarms AdminDashboard.Healthy farms)
      + List.length (AdminDashboard.filteredFarms AdminDashboard.AtRisk farms)
      + List.length (AdminDashboard.filteredFarms AdminDashboard.Critical farms)
      = List.length farms)%nat
  /\ AdminDashboard.filteredFarms AdminDashboard.All farms = farms
  /\ forall f, exists rest,
       Permutation farms (AdminDashboard.filteredFarms f farms ++ rest).
Proof.
  assert (Hone : forall farm,
     (AdminDashboard.keeps AdminDashboard.Healthy farm = true
      /\ AdminDashboard.keeps AdminDashboard.AtRisk farm = false
      /\ AdminDashboard.keeps AdminDashboard.Critical farm = false)
     \/ (AdminDashboard.keeps AdminDashboard.Healthy farm = false
         /\ AdminDashboard.keeps AdminDashboard.AtRisk farm = true
         /\ AdminDashboard.keeps AdminDashboard.Critical farm = false)
     \/ (AdminDashboard.keeps AdminDashboard.Healthy farm = false
         /\ AdminDashboard.keeps AdminDashboard.AtRisk farm = false
         /\ AdminDashboard.keeps AdminDashboard.Critical farm = true)).
  { intros farm. unfold AdminDashboard.keeps.
    destruct (AdminDashboard.status farm); cbn; auto. }
  split; [exact Hone|]. unfold AdminDashboard.filteredFarms.
  split; [|split].
  - induction farms as [|farm farms IH]; [reflexivity|].
    cbn [List.filter].
    destruct (Hone farm) as [[-> [-> ->]]|[[-> [-> ->]]|[-> [-> ->]]]];
      cbn [List.length]; lia.
  - induction farms as [|farm farms IH]; [reflexivity|].
    cbn [List.filter AdminDashboard.keeps]. now rewrite IH.
  - intros f.
    exists (List.filter (fun x => negb (AdminDashboard.keeps f x)) farms).
    induction farms as [|farm farms IH]; [reflexivity|].
    cbn [List.filter]. destruct (AdminDashboard.keeps f farm); cbn [negb app].
    + apply perm_skip. exact IH.
    + rewrite IH at 1. apply Permutation_middle.
Qed.

(** ** The zone grid of the health map *)

Section ZoneGrid.

Import ZoneMapGrid.

Lemma updateAt_length {A : Type} (i : nat) (f : A -> A) (l : list A) :
  List.length (updateAt i f l) = List.length l.
Proof.
  revert i. induction l as [|x l IH]; intros [|i]; cbn; auto.
Qed.

Lemma nth_updateAt_same {A : Type} (i : nat) (f : A -> A) (l : list A)
    (d : A) :
  (i < List.length l)%nat -> nth i (updateAt i f l) d = f (nth i l d).
Proof.
  revert i. induction l as [|x l IH]; intros [|i] H; cbn in *;
    try lia; [reflexivity|]. apply IH. lia.
Qed.

Lemma nth_updateAt_other {A : Type} (i j : nat) (f : A -> A) (l : list A)
    (d : A) :
  i <> j -> nth j (updateAt i f l) d = nth j l d.
Proof.
  revert i j. induction l as [|x l IH]; intros [|i] [|j] H; cbn;
    try reflexivity; try congruence.
  apply IH. congruence.
Qed.

Lemma emptyGrid_shape (rows cols : nat) : shape rows cols (emptyGrid rows cols).
Proof.
  unfold shape, emptyGrid. split; [apply repeat_length|].
  apply Forall_forall. intros r Hr. apply repeat_spec in Hr. subst r.
  apply repeat_length.
Qed.

Lemma Forall_updateAt {A : Type} (P : A -> Prop) (i : nat) (f : A -> A)
    (l : list A) :
  (forall x, P x -> P (f x)) -> Forall P l -> Forall P (updateAt i f l).
Proof.
  intros Hf H. revert i. induction H as [|x l Hx Hl IH]; intros [|i]; cbn;
    constructor; auto.
Qed.

Lemma setCell_shape (rows cols : nat) (g : Grid) (r c : nat) (z : Zone) :
  shape rows cols g -> shape rows cols (setCell g r c z).
Proof.
  intros [Hl Hr]. unfold shape, setCell. split.
  - rewrite updateAt_length. exact Hl.
  - apply Forall_updateAt; [|exact Hr].
    intros x Hx. rewrite updateAt_length. exact Hx.
Qed.

Lemma shape_row (rows cols : nat) (g : Grid) (r : nat) :
  shape rows cols g -> (r < rows)%nat -> List.length (nth r g []) = cols.
Proof.
  intros [Hl Hr] Hlt. rewrite Forall_forall in Hr. apply Hr.
  apply nth_In. lia.
Qed.

Lemma cell_setCell (rows cols : nat) (g : Grid) (r c r' c' : nat) (z : Zone) :
  shape rows cols g -> (r < rows)%nat -> (c < cols)%nat ->
  cell (setCell g r c z) r' c' =
  if ((r =? r') && (c =? c'))%nat then Some z else cell g r' c'.
Proof.
  intros Hs Hr Hc. unfold cell, setCell.
  destruct (Nat.eqb_spec r r') as [<-|Hne]; cbn [andb].
  - rewrite nth_updateAt_same by (destruct Hs; lia).
    destruct (Nat.eqb_spec c c') as [<-|Hne].
    + rewrite nth_updateAt_same; [reflexivity|].
      rewrite (shape_row rows cols g r Hs Hr). exact Hc.
    + apply nth_updateAt_other. exact Hne.
  - rewrite nth_updateAt_other by exact Hne. reflexivity.
Qed.

Lemma lastAt_snoc (zones : list Zone) (z : Zone) (r c : nat) :
  lastAt (zones ++ [z]) r c =
  if ((row z =? Z.of_nat r) && (col z =? Z.of_nat c))%Z then Some z
  else lastAt zones r c.
Proof. unfold lastAt. rewrite rev_app_distr. reflexivity. Qed.

Lemma buildGrid_snoc (rows cols : nat) (zones : list Zone) (z : Zone) :
  buildGrid rows cols (zones ++ [z]) =
  placeZone rows cols (buildGrid rows cols zones) z.
Proof. unfold buildGrid. rewrite fold_left_app. reflexivity. Qed.

Lemma buildGrid_cells (rows cols : nat) (zones : list Zone) :
  forall g, buildGrid rows cols zones = Some g ->
    shape rows cols g
    /\ forall r c, (r < rows)%nat -> (c < cols)%nat ->
         cell g r c = lastAt zones r c.
Proof.
  induction zones as [|z zones IH] using rev_ind; intros g H.
  - injection H as <-. split; [apply emptyGrid_shape|].
    intros r c Hr Hc. unfold cell, emptyGrid, lastAt. cbn [rev find].
    rewrite (nth_indep _ [] (repeat None cols))
      by (rewrite repeat_length; exact Hr).
    rewrite nth_repeat. apply nth_repeat.
  - rewrite buildGrid_snoc in H.
    destruct (buildGrid rows cols zones) as [g0|]; [|discriminate].
    destruct (IH g0 eq_refl) as [Hs Hcells]. cbn [placeZone] in H.
    destruct (row z <? Z.of_nat rows)%Z eqn:Hr1;
      destruct (col z <? Z.of_nat cols)%Z eqn:Hc1; cbn [andb] in H.
    2-4: injection H as <-; split; [exact Hs|];
      intros r c Hr Hc; rewrite lastAt_snoc, (Hcells r c Hr Hc);
      destruct (Z.eqb_spec (row z) (Z.of_nat r));
      destruct (Z.eqb_spec (col z) (Z.of_nat c)); cbn [andb];
      try reflexivity; exfalso;
      apply Z.ltb_ge in Hr1 || apply Z.ltb_ge in Hc1; lia.
    destruct (row z <? 0)%Z eqn:Hr0; [discriminate|].
    destruct (col z <? 0)%Z eqn:Hc0.
    + injection H as <-. split; [exact Hs|].
      intros r c Hr Hc. rewrite lastAt_snoc, (Hcells r c Hr Hc).
      destruct (Z.eqb_spec (col z) (Z.of_nat c)); [|now rewrite andb_false_r].
      apply Z.ltb_lt in Hc0. lia.
    + injection H as <-.
      apply Z.ltb_lt in Hr1. apply Z.ltb_lt in Hc1.
      apply Z.ltb_ge in Hr0. apply Z.ltb_ge in Hc0.
      split; [apply setCell_shape; exact Hs|].
      intros r c Hr Hc.
      rewrite (cell_setCell rows cols) by (assumption || lia).
      rewrite lastAt_snoc, (Hcells r c Hr Hc).
      destruct (Nat.eqb_spec (Z.to_nat (row z)) r);
        destruct (Nat.eqb_spec (Z.to_nat (col z)) c);
        destruct (Z.eqb_spec (row z) (Z.of_nat r));
        destruct (Z.eqb_spec (col z) (Z.of_nat c)); cbn [andb];
        try reflexivity; exfalso; lia.
Qed.

Lemma placeZone_thrown (rows cols : nat) (zones : list Zone) :
  fold_left (placeZone rows cols) zones None = None.
Proof. induction zones as [|z zones IH]; [reflexivity|exact IH]. Qed.

Lemma buildGrid_from (rows cols : nat) (zones : list Zone) :
  forall g,
    fold_left (placeZone rows cols) zones (Some g) = None
    <-> exists z, In z zones /\ (row z < 0)%Z /\ (col z < Z.of_nat cols)%Z.
Proof.
  induction zones as [|z zones IH]; intros g; cbn [fold_left].
  - split; [discriminate|]. intros [z [[] _]].
  - assert (Hstep :
      (placeZone rows cols (Some g) z = None
       /\ (row z < 0)%Z /\ (col z < Z.of_nat cols)%Z)
      \/ (exists g', placeZone rows cols (Some g) z = Some g'
          /\ ~ ((row z < 0)%Z /\ (col z < Z.of_nat cols)%Z))).
    { cbn [placeZone].
      destruct (Z.ltb_spec (row z) (Z.of_nat rows));
        destruct (Z.ltb_spec (col z) (Z.of_nat cols)); cbn [andb];
        try (right; eexists; split; [reflexivity|lia]).
      destruct (Z.ltb_spec (row z) 0); [left; auto|].
      destruct (Z.ltb_spec (col z) 0);
        right; eexists; (split; [reflexivity|lia]). }
    destruct Hstep as [[-> Hz]|[g' [-> Hz]]].
    + rewrite placeZone_thrown. split; [|reflexivity].
      intros _. exists z. split; [left; reflexivity|exact Hz].
    + rewrite IH. split.
      * intros [y [Hy Hy']]. exists y. split; [right; exact Hy|exact Hy'].
      * intros [y [[<-|Hy] Hy']]; [contradiction|].
        exists y. split; assumption.
Qed.

End ZoneGrid.

(** X8. When the health map builds its grid, the grid has rows x cols
    cells, each cell holds the last zone of the list that names it (or is
    empty when none does), and a zone whose row or column is beyond the
    grid appears in no cell: it is dropped without an error. *)
Theorem zone_grid_cells (rows cols : nat) (zones : list Zone)
    (g : ZoneMapGrid.Grid) :
  ZoneMapGrid.buildGrid rows cols zones = Some g ->
  List.length g = rows
  /\ Forall (fun r => List.length r = cols) g
  /\ (forall r c, (r < rows)%nat -> (c < cols)%nat ->
        ZoneMapGrid.cell g r c = ZoneMapGrid.lastAt zones r c)
  /\ (forall r c z, (r < rows)%nat -> (c < cols)%nat ->
        ZoneMapGrid.cell g r c = Some z ->
        In z zones /\ row z = Z.of_nat r /\ col z = Z.of_nat c)
  /\ (forall r c, (r < rows)%nat -> (c < cols)%nat ->
        (ZoneMapGrid.cell g r c = None
         <-> forall z, In z zones ->
               ~ (row z = Z.of_nat r /\ col z = Z.of_nat c))).
Proof.
  intros H. destruct (buildGrid_cells rows cols zones g H) as [[Hl Hr] Hc].
  split; [exact Hl|]. split; [exact Hr|]. split; [exact Hc|]. split.
  - intros r c z Hlt Hlt' Hz. rewrite (Hc r c Hlt Hlt') in Hz.
    unfold ZoneMapGrid.lastAt in Hz. apply find_some in Hz.
    destruct Hz as [Hin Hm]. apply in_rev in Hin.
    apply andb_prop in Hm as [H1 H2].
    apply Z.eqb_eq in H1. apply Z.eqb_eq in H2. auto.
  - intros r c Hlt Hlt'. rewrite (Hc r c Hlt Hlt').
    unfold ZoneMapGrid.lastAt. split.
    + intros Hn z Hin [H1 H2].
      assert (Hin' : In z (rev zones)) by (apply in_rev in Hin; exact Hin).
      pose proof (find_none _ _ Hn z Hin') as Hf. cbv beta in Hf.
      rewrite H1, H2, !Z.eqb_refl in Hf. discriminate Hf.
    + intros Hn.
      destruct (find _ (rev zones)) as [z|] eqn:E; [|reflexivity].
      exfalso. apply find_some in E. destruct E as [Hin Hm].
      apply in_rev in Hin. apply andb_prop in Hm as [H1 H2].
      apply Z.eqb_eq in H1. apply Z.eqb_eq in H2.
      apply (Hn z Hin). auto.
Qed.

Lemma zone_grid_cells_witness :
  ZoneMapGrid.cell
    [[Some (mkZone "A1b" 0 0 20 critical 0 0 0 [] [] 1); None];
     [None; None]] 0 0
  = ZoneMapGrid.lastAt
      [mkZone "A1" 0 0 80 healthy 0 0 0 [] [] 1;
       mkZone "Z9" 5 0 40 degraded 0 0 0 [] [] 1;
       mkZone "A1b" 0 0 20 critical 0 0 0 [] [] 1] 0 0.
Proof.
  apply (zone_grid_cells 2 2
           [mkZone "A1" 0 0 80 healthy 0 0 0 [] [] 1;
            mkZone "Z9" 5 0 40 degraded 0 0 0 [] [] 1;
            mkZone "A1b" 0 0 20 critical 0 0 0 [] [] 1]);
    [reflexivity | lia | lia].
Defined.


(** ** Choosing and validating the farm location *)

Lemma isValidCoordinate_range (lat lng : number) :
  FarmLocationSelector.isValidCoordinate lat lng = true <->
  exists a b, lat = Num a /\ lng = Num b
              /\ -90 <= a <= 90 /\ -180 <= b <= 180.
Proof.
  unfold FarmLocationSelector.isValidCoordinate. split.
  - intros H.
    apply andb_prop in H as [H H4]. apply andb_prop in H as [H H3].
    apply andb_prop in H as [H1 H2].
    destruct lat as [| | |a]; try discriminate;
      destruct lng as [| | |b]; try discriminate.
    cbn [num_geb num_leb] in *. exists a, b.
    repeat split; auto using Qle_bool_true_le.
  - intros [a [b [-> [-> [[H1 H2] [H3 H4]]]]]]. cbn [num_geb num_leb].
    rewrite !Qle_bool_of_le by assumption. reflexivity.
Qed.

(** X10. Typing coordinates by hand updates the farm location exactly when
    the two fields, as they now read, pass [validateCurrentCoords]; the
    location passed on is then a pair of finite numbers with latitude in
    [-90, 90] and longitude in [-180, 180]. *)
Theorem manual_coordinates_in_range
    (parseFloat : string -> number)
    (manualCoords : FarmLocationSelector.ManualCoords)
    (field : FarmLocationSelector.Field) (value : string) :
  let result := FarmLocationSelector.handleManualCoordChange
                  parseFloat manualCoords field value in
  (fst (FarmLocationSelector.validateCurrentCoords parseFloat (fst result))
   = true
   <-> exists lat lng, snd result = Some (lat, lng))
  /\ forall lat lng, snd result = Some (lat, lng) ->
       exists a b, lat = Num a /\ lng = Num b
                   /\ -90 <= a <= 90 /\ -180 <= b <= 180.
Proof.
  cbv zeta.
  unfold FarmLocationSelector.handleManualCoordChange,
    FarmLocationSelector.validateCurrentCoords.
  destruct field; cbn [FarmLocationSelector.latitude
                         FarmLocationSelector.longitude];
  match goal with
  | |- context [FarmLocationSelector.isValidCoordinate ?x ?y] =>
      set (lat0 := x); set (lng0 := y)
  end;
  destruct (FarmLocationSelector.isValidCoordinate lat0 lng0) eqn:Hv;
  destruct (isNaN lat0) eqn:Hlat; destruct (isNaN lng0) eqn:Hlng;
  cbn [negb andb orb fst snd FarmLocationSelector.latitude
         FarmLocationSelector.longitude];
  fold lat0; fold lng0; rewrite ?Hlat, ?Hlng, ?Hv;
  cbn [negb andb orb fst snd];
  (split;
   [split; [intros H; try discriminate H; eauto
           |intros [x [y H]]; try discriminate H; reflexivity]
   |intros x y H; try discriminate H; injection H as <- <-;
    apply isValidCoordinate_range; exact Hv]).
Qed.

(** X11. A location on the equator or on the prime meridian, although a
    valid coordinate, is refused by the new-farm form: [validateForm] reads
    a zero latitude or longitude as no location selected, and submitting
    stores nothing. *)
Theorem zero_coordinate_rejected
    (env : NewFarmPage.Env) (user : string)
    (formData : NewFarmPage.FormData) (q : Q) (db : Schema.Farms) :
  q == 0 ->
  NewFarmPage.location_lat formData = Some (Num q)
  \/ NewFarmPage.location_lng formData = Some (Num q) ->
  FarmLocationSelector.isValidCoordinate (Num q) (Num q) = true
  /\ NewFarmPage.validateForm env formData = false
  /\ NewFarmPage.location_error (NewFarmPage.newErrors env formData)
     = Some "Please select a location on the map"
  /\ NewFarmPage.handleSubmit env user formData db
     = (NewFarmPage.Errors (NewFarmPage.newErrors env formData), db).
Proof.
  intros Hq Hloc.
  assert (Hfalsy : NewFarmPage.truthy (Some (Num q)) = false).
  { cbn [NewFarmPage.truthy]. apply negb_false_iff.
    apply Qeq_bool_iff. exact Hq. }
  assert (Herr : NewFarmPage.locationError formData
                 = Some "Please select a location on the map").
  { unfold NewFarmPage.locationError.
    destruct Hloc as [-> | ->]; rewrite Hfalsy; cbn [negb orb];
      [reflexivity|]. rewrite orb_true_r. reflexivity. }
  assert (Hval : NewFarmPage.validateForm env formData = false).
  { unfold NewFarmPage.validateForm, NewFarmPage.noErrors,
      NewFarmPage.newErrors.
    cbn [NewFarmPage.name_error NewFarmPage.location_error].
    rewrite Herr. cbn [NewFarmPage.isNone].
    rewrite andb_false_r. reflexivity. }
  split; [|split; [exact Hval|split]].
  - apply isValidCoordinate_range. exists q, q.
    repeat split; rewrite Hq; discriminate.
  - exact Herr.
  - unfold NewFarmPage.handleSubmit. rewrite Hval. reflexivity.
Qed.

Lemma zero_coordinate_rejected_witness :
  NewFarmPage.validateForm NewFarmPage.sampleEnv
    (NewFarmPage.mkFormData "Green Acres" (Some (Num 0)) (Some (Num (36 # 1)))
       "7.5" "Maize" "2024-03-01" "2024-09-01") = false.
Proof.
  apply (zero_coordinate_rejected NewFarmPage.sampleEnv "user-1"
           (NewFarmPage.mkFormData "Green Acres" (Some (Num 0))
              (Some (Num (36 # 1))) "7.5" "Maize" "2024-03-01" "2024-09-01")
           0 []).
  - reflexivity.
  - left. reflexivity.
Defined.

Lemma nonempty_true (s : string) :
  NewFarmPage.nonempty s = true -> s <> "".
Proof.
  unfold NewFarmPage.nonempty. intros H E. subst s. discriminate H.
Qed.

(** X12. A form that [validateForm] accepts has a trimmed name of 2 to 100
    characters, a trimmed crop type of at least 2, a nonzero latitude and
    longitude, an area that parses to a finite number in (0, 100000], both
    dates filled in, and, when the dates parse, a planting date within the
    last year and not in the future and a harvest date after it and at
    most one year ahead. *)
Theorem validateForm_accepts_only
    (env : NewFarmPage.Env) (formData : NewFarmPage.FormData) :
  NewFarmPage.validateForm env formData = true ->
  (2 <= String.length (NewFarmPage.trim env (NewFarmPage.name formData))
   <= 100)%nat
  /\ (2 <= String.length
            (NewFarmPage.trim env (NewFarmPage.crop_type formData)))%nat
  /\ NewFarmPage.truthy (NewFarmPage.location_lat formData) = true
  /\ NewFarmPage.truthy (NewFarmPage.location_lng formData) = true
  /\ (exists area,
        NewFarmPage.parseFloat env (NewFarmPage.area_hectares formData)
        = Num area /\ 0 < area <= 100000)
  /\ NewFarmPage.planting_date formData <> ""
  /\ NewFarmPage.harvest_date formData <> ""
  /\ (forall p,
        NewFarmPage.newDate env (NewFarmPage.planting_date formData) = Some p ->
        (NewFarmPage.oneYearAgo env <= p <= NewFarmPage.today env)%Z)
  /\ (forall h,
        NewFarmPage.newDate env (NewFarmPage.harvest_date formData) = Some h ->
        (h <= NewFarmPage.oneYearFromNow env)%Z
        /\ forall p,
             NewFarmPage.newDate env (NewFarmPage.planting_date formData)
             = Some p -> (p < h)%Z).
Proof.
  unfold NewFarmPage.validateForm, NewFarmPage.noErrors, NewFarmPage.newErrors.
  cbn [NewFarmPage.name_error NewFarmPage.location_error
       NewFarmPage.area_hectares_error NewFarmPage.crop_type_error
       NewFarmPage.planting_date_error NewFarmPage.harvest_date_error
       NewFarmPage.general_error].
  intros H.
  apply andb_prop in H as [H _]. apply andb_prop in H as [H Hh].
  apply andb_prop in H as [H Hp]. apply andb_prop in H as [H Hc].
  apply andb_prop in H as [H Ha]. apply andb_prop in H as [Hn Hl].
  assert (Hplant : NewFarmPage.planting_date formData <> "").
  { unfold NewFarmPage.plantingError in Hp.
    destruct (NewFarmPage.nonempty (NewFarmPage.planting_date formData)) eqn:E;
      [apply nonempty_true; exact E|discriminate Hp]. }
  repeat split.
  - unfold NewFarmPage.nameError in Hn.
    destruct (negb _); [discriminate|].
    destruct (Nat.ltb_spec
                (String.length (NewFarmPage.trim env (NewFarmPage.name formData)))
                2); [discriminate|assumption].
  - unfold NewFarmPage.nameError in Hn.
    destruct (negb _); [discriminate|].
    destruct (_ <? 2)%nat; [discriminate|].
    destruct (Nat.ltb_spec 100
                (String.length (NewFarmPage.trim env (NewFarmPage.name formData))));
      [discriminate|assumption].
  - unfold NewFarmPage.cropError in Hc.
    destruct (negb _); [discriminate|].
    destruct (Nat.ltb_spec
                (String.length
                   (NewFarmPage.trim env (NewFarmPage.crop_type formData)))
                2); [discriminate|assumption].
  - unfold NewFarmPage.locationError in Hl.
    destruct (NewFarmPage.truthy (NewFarmPage.location_lat formData));
      [reflexivity|discriminate].
  - unfold NewFarmPage.locationError in Hl.
    destruct (NewFarmPage.truthy (NewFarmPage.location_lat formData));
      [|discriminate].
    destruct (NewFarmPage.truthy (NewFarmPage.location_lng formData));
      [reflexivity|discriminate].
  - unfold NewFarmPage.areaError in Ha.
    destruct (negb _); [discriminate|]. cbv zeta in Ha.
    destruct (NewFarmPage.parseFloat env (NewFarmPage.area_hectares formData))
      as [| | |area]; try discriminate Ha.
    cbn [isNaN num_leb num_gtb orb] in Ha.
    destruct (Qle_bool area 0) eqn:E0; [discriminate|].
    destruct (Qle_bool area 100000) eqn:E1; [|discriminate].
    exists area. split; [reflexivity|].
    split; [apply Qle_bool_false_lt; exact E0
           |apply Qle_bool_true_le; exact E1].
  - exact Hplant.
  - unfold NewFarmPage.harvestError in Hh.
    destruct (NewFarmPage.nonempty (NewFarmPage.harvest_date formData)) eqn:E;
      [apply nonempty_true; exact E|discriminate Hh].
  - unfold NewFarmPage.plantingError in Hp.
    destruct (negb _); [discriminate|]. cbv zeta in Hp. rewrite H in Hp.
    cbn [NewFarmPage.date_gtb NewFarmPage.date_ltb] in Hp.
    destruct (Z.ltb_spec (NewFarmPage.today env) p); [discriminate|].
    destruct (Z.ltb_spec p (NewFarmPage.oneYearAgo env));
      [discriminate|assumption].
  - unfold NewFarmPage.plantingError in Hp.
    destruct (negb _); [discriminate|]. cbv zeta in Hp. rewrite H in Hp.
    cbn [NewFarmPage.date_gtb NewFarmPage.date_ltb] in Hp.
    destruct (Z.ltb_spec (NewFarmPage.today env) p);
      [discriminate|assumption].
  - unfold NewFarmPage.harvestError in Hh.
    destruct (negb _); [discriminate|]. cbv zeta in Hh. rewrite H in Hh.
    destruct (_ && _); [discriminate|].
    cbn [NewFarmPage.date_gtb] in Hh.
    destruct (Z.ltb_spec (NewFarmPage.oneYearFromNow env) h);
      [discriminate|assumption].
  - intros p Hpd. unfold NewFarmPage.harvestError in Hh.
    destruct (negb _); [discriminate|]. cbv zeta in Hh.
    rewrite H, Hpd in Hh.
    assert (Hne : NewFarmPage.nonempty (NewFarmPage.planting_date formData)
                  = true).
    { unfold NewFarmPage.nonempty. apply negb_true_iff.
      apply String.eqb_neq. exact Hplant. }
    rewrite Hne in Hh. cbn [andb NewFarmPage.date_leb] in Hh.
    destruct (Z.leb_spec h p); [discriminate|assumption].
Qed.

Lemma validateForm_accepts_only_witness :
  exists area,
    NewFarmPage.parseFloat NewFarmPage.sampleEnv
      (NewFarmPage.area_hectares NewFarmPage.sampleForm) = Num area
    /\ 0 < area <= 100000.
Proof.
  apply (validateForm_accepts_only NewFarmPage.sampleEnv NewFarmPage.sampleForm).
  reflexivity.
Defined.

(** ** Days until harvest *)

Lemma diffDays_bounds (today h : Z) :
  exists d, Harvest.diffDays today (Some h) = Some d
    /\ ((d - 1) * 86400000 < h - today <= d * 86400000)%Z.
Proof.
  unfold Harvest.diffDays. change Harvest.msPerDay with 86400000%Z.
  eexists. split; [reflexivity|].
  pose proof (Z.div_mod (today - h) 86400000) as Hdm.
  pose proof (Z.mod_pos_bound (today - h) 86400000) as Hmod.
  set (q := ((today - h) / 86400000)%Z) in *.
  set (r := ((today - h) mod 86400000)%Z) in *.
  lia.
Qed.

(** X13. The harvest badge of the farm list depends on the time left,
    harvest minus now: it is urgent exactly when at most 7 days are left;
    it reads "Overdue" in red once the harvest time is a full day or more
    in the past, and "Today" from less than a day past up to now; it is
    blue for more than 7 and at most 30 days, grey beyond; for an invalid
    harvest date it is the grey, non-urgent "NaNd". *)
Theorem harvest_badge_bands (today h : Z) :
  let badge := Harvest.getDaysUntilHarvestBadge today (Some h) in
  let left := (h - today)%Z in
  (Harvest.urgent badge = true <-> (left <= 7 * 86400000)%Z)
  /\ ((left <= - 86400000)%Z <->
      badge = Harvest.mkBadge "Overdue" "text-red-600" true)
  /\ ((- 86400000 < left <= 0)%Z ->
      badge = Harvest.mkBadge "Today" "text-amber-600" true)
  /\ (Harvest.color badge = "text-blue-600"
      <-> (7 * 86400000 < left <= 30 * 86400000)%Z)
  /\ (Harvest.color badge = "text-gray-600" <-> (30 * 86400000 < left)%Z)
  /\ Harvest.getDaysUntilHarvestBadge today None
     = Harvest.mkBadge "NaNd" "text-gray-600" false.
Proof.
  cbv zeta. unfold Harvest.getDaysUntilHarvestBadge.
  destruct (diffDays_bounds today h) as [d [-> Hd]].
  destruct (Z.ltb_spec d 0) as [H0|H0];
    [|destruct (Z.eqb_spec d 0) as [E0|E0];
      [|destruct (Z.leb_spec d 7) as [H7|H7];
        [|destruct (Z.leb_spec d 30) as [H30|H30]]]];
    cbn [Harvest.urgent Harvest.color];
    repeat split; intros; try reflexivity; try lia; try discriminate;
    try congruence.
Qed.

(** X14. On the farm detail page the harvest countdown reads "n days
    overdue" once the harvest time is a full day or more in the past, n
    being the number of whole days past; "Today" from less than a day past
    up to now; "1 day" for up to a day ahead; and "n days" (n >= 2)
    beyond, n being the number of days started; an invalid date reads
    "NaN days". *)
Theorem harvest_countdown_text (today h : Z) :
  let shown := Harvest.getDaysUntilHarvest today (Some h) in
  let left := (h - today)%Z in
  ((left <= - 86400000)%Z ->
   exists n, (1 <= n)%Z
             /\ (n * 86400000 <= today - h < (n + 1) * 86400000)%Z
             /\ shown = (Harvest.numberText (Some n) ++ " days overdue")%string)
  /\ ((- 86400000 < left <= 0)%Z -> shown = "Today")
  /\ ((0 < left <= 86400000)%Z -> shown = "1 day")
  /\ ((86400000 < left)%Z ->
      exists n, (2 <= n)%Z /\ ((n - 1) * 86400000 < left <= n * 86400000)%Z
                /\ shown = (Harvest.numberText (Some n) ++ " days")%string)
  /\ Harvest.getDaysUntilHarvest today None = "NaN days".
Proof.
  cbv zeta. unfold Harvest.getDaysUntilHarvest.
  destruct (diffDays_bounds today h) as [d [-> Hd]].
  destruct (Z.ltb_spec d 0) as [H0|H0];
    [|destruct (Z.eqb_spec d 0) as [E0|E0];
      [|destruct (Z.eqb_spec d 1) as [E1|E1]]];
    (split; [intros Hl|split; [intros Hl|split; [intros Hl|split;
       [intros Hl|reflexivity]]]]);
    try reflexivity; try (exfalso; lia).
  - exists (Z.abs d). split; [lia|]. split; [lia|reflexivity].
  - exists d. split; [lia|]. split; [lia|reflexivity].
Qed.

Example harvest_six_hours_ago_reads_today :
  Harvest.getDaysUntilHarvest 1700000000000 (Some 1699978400000%Z) = "Today".
Proof. reflexivity. Qed.

Example harvest_in_36_hours_reads_2_days :
  Harvest.getDaysUntilHarvest 1700000000000 (Some 1700129600000%Z) = "2 days".
Proof. reflexivity. Qed.

(** ** Zone styling and zone geometry *)

Ltac ladder_case q c :=
  let E := fresh "E" in
  destruct (Qle_bool c q) eqn:E;
  [apply Qle_bool_true_le in E | apply Qle_bool_false_lt in E].

(** X15. The map overlay paints a zone in the colour the health gauge uses
    for the same score, for every number (NaN included), and its fill
    opacity never grows with health: a less healthy zone is at least as
    visible, between 0.3 and 0.6. *)
Theorem overlay_style_follows_health (x : number) (a b : Q) :
  ZoneOverlayStyle.getZoneColor x
  = HealthGauge.color (HealthGauge.getHealthConfig x)
  /\ (a <= b ->
      ZoneOverlayStyle.getZoneFillOpacity (Num b)
      <= ZoneOverlayStyle.getZoneFillOpacity (Num a))
  /\ 3 # 10 <= ZoneOverlayStyle.getZoneFillOpacity x <= 6 # 10.
Proof.
  split; [|split].
  - unfold ZoneOverlayStyle.getZoneColor, HealthGauge.getHealthConfig.
    destruct (num_geb x 75); [reflexivity|].
    destruct (num_geb x 55); [reflexivity|].
    destruct (num_geb x 35); reflexivity.
  - intros Hab. unfold ZoneOverlayStyle.getZoneFillOpacity. cbn [num_geb].
    ladder_case a 75; ladder_case a 55; ladder_case a 35;
      ladder_case b 75; ladder_case b 55; ladder_case b 35;
      try (exfalso; qlra); discriminate.
  - unfold ZoneOverlayStyle.getZoneFillOpacity.
    destruct (num_geb x 75); [split; discriminate|].
    destruct (num_geb x 55); [split; discriminate|].
    destruct (num_geb x 35); split; discriminate.
Qed.





(** ** What a created farm looks like *)



(** X19. The zone alert list looks at the health score alone: a zone is
    listed as a problem zone exactly when the health gauge would label its
    score "Needs Attention" or "Critical", whatever status the zone record
    carries. *)
Theorem problem_zone_iff_gauge_label (z : Zone) :
  ZoneAlertList.isProblemZone z = true
  <-> (HealthGauge.label (HealthGauge.getHealthConfig (Num (health z)))
       = ZoneDetail.statusLabel degraded
       \/ HealthGauge.label (HealthGauge.getHealthConfig (Num (health z)))
          = ZoneDetail.statusLabel critical).
Proof.
  rewrite isProblemZone_lt.
  unfold HealthGauge.getHealthConfig. cbn [num_geb ZoneDetail.statusLabel].
  ladder_case (health z) 75; [|ladder_case (health z) 55;
    [|ladder_case (health z) 35]]; cbn [HealthGauge.label]; split;
    try (intros [H|H]; discriminate H); try (intros; exfalso; qlra);
    intros _; try qlra; auto.
Qed.
